(** * MLB retrieval functions: a shallow embedding and its verified properties

    The development follows the three Python modules it embeds:

    - [ToDict]: the object-to-mapping conversion [_to_dict]
      (a_get_mlb_schedule.py and b_get_mlb_pbp_data.py hold the same text);
    - [Stats]: the event extractor and the compilation pass of
      c_get_mlb_pbp_stats.py, over parsed JSON documents;
    - [Fetch]: the cache store and the fetch orchestrator of
      b_get_mlb_pbp_data.py, over an explicit file system and remote service;
    - [Schedule]: the rows of the schedule table of a_get_mlb_schedule.py.

    Python exceptions are values of a sum type; code that mutates a list or the
    file system threads that state explicitly. *)

From Stdlib Require Import ZArith QArith Reals Lra Lia List Bool Ascii String.
From stdpp Require Import base option list gmap strings pretty.

Set Default Proof Using "Type".
Set Warnings "-register-all".
Local Open Scope string_scope.
Local Open Scope list_scope.
Local Open Scope Z_scope.

(* ===================================================================== *)
(** ** Python values of the object graph handed to [_to_dict] *)
(* ===================================================================== *)

Module ToDict.

(** The run-time values [_to_dict] distinguishes.  [PDict] is a [dict] in
    insertion order, [PList] a [list], [PInst] an object that has a [__dict__]
    (its attributes in [vars(obj)] order).  Everything else takes the final
    [else] branch: the primitives, and containers that are neither [dict] nor
    [list], of which [PTuple] is the representative.  Values are finite trees:
    a cyclic object graph, on which the Python recursion does not end, has no
    counterpart here. *)
Inductive pyobj : Type :=
| PNone
| PBool (b : bool)
| PInt (z : Z)
| PFloat (q : Q)
| PStr (s : string)
| PTuple (items : list pyobj)
| PList (items : list pyobj)
| PDict (items : list (pyobj * pyobj))
| PInst (attrs : list (string * pyobj)).

(** [k.startswith("_")] *)
Definition startswith_underscore (k : string) : bool :=
  match k with
  | String c _ => Ascii.eqb c "_"%char
  | EmptyString => false
  end.

(** The comprehension [[f(x) for x in l if cond(x)]]: [f] is run only on the
    elements that pass [cond]. *)
Definition comprehension {A B : Type} (cond : A -> bool) (f : A -> B)
  : list A -> list B :=
  fix go (l : list A) : list B :=
    match l with
    | [] => []
    | x :: r => if cond x then f x :: go r else go r
    end.

(** [_to_dict(obj)], lines 276-296 of b_get_mlb_pbp_data.py. *)
Fixpoint _to_dict (obj : pyobj) : pyobj :=
  match obj with
  | PDict items =>
      PDict (map (fun kv : pyobj * pyobj => let (k, v) := kv in (k, _to_dict v)) items)
  | PList items =>
      PList (map _to_dict items)
  | PInst attrs =>
      PDict (comprehension
               (fun kv : string * pyobj => negb (startswith_underscore (fst kv)))
               (fun kv : string * pyobj => let (k, v) := kv in (PStr k, _to_dict v))
               attrs)
  | _ => obj
  end.

(** A value that consists only of plain dictionaries, lists and primitives.
    Dictionary keys are hashable values that the conversion never opens, so
    only the values under them are inspected. *)
Fixpoint plain (obj : pyobj) : bool :=
  match obj with
  | PNone | PBool _ | PInt _ | PFloat _ | PStr _ => true
  | PTuple _ => false
  | PList items => forallb plain items
  | PDict items => forallb (fun kv => plain (snd kv)) items
  | PInst _ => false
  end.

(** An object graph as the client library returns it: an instance with a
    private attribute, a list of instances, and a dictionary that holds a
    tuple. *)
Definition sample_play : pyobj :=
  PInst [ ("_raw", PStr "cache");
          ("gamepk", PInt 745444);
          ("allplays",
            PList [ PInst [ ("about", PInst [ ("inning", PInt 1) ]);
                            ("_mlb", PNone) ] ]);
          ("extra", PDict [ (PStr "k", PTuple [ PInt 1 ]) ]) ].

(** Structural induction that reaches below the lists. *)
Section pyobj_nested_ind.
Variable P : pyobj -> Prop.
Hypothesis HNone : P PNone.
Hypothesis HBool : forall b, P (PBool b).
Hypothesis HInt : forall z, P (PInt z).
Hypothesis HFloat : forall q, P (PFloat q).
Hypothesis HStr : forall s, P (PStr s).
Hypothesis HTuple : forall items, Forall P items -> P (PTuple items).
Hypothesis HList : forall items, Forall P items -> P (PList items).
Hypothesis HDict :
    forall items, Forall (fun kv => P (snd kv)) items -> P (PDict items).
Hypothesis HInst :
    forall attrs, Forall (fun kv => P (snd kv)) attrs -> P (PInst attrs).

Fixpoint pyobj_nested_ind (o : pyobj) : P o :=
    match o with
    | PNone => HNone
    | PBool b => HBool b
    | PInt z => HInt z
    | PFloat q => HFloat q
    | PStr s => HStr s
    | PTuple items =>
        HTuple items
          ((fix go (l : list pyobj) : Forall P l :=
              match l with
              | [] => List.Forall_nil _
              | x :: r => @List.Forall_cons _ P x r (pyobj_nested_ind x) (go r)
              end) items)
    | PList items =>
        HList items
          ((fix go (l : list pyobj) : Forall P l :=
              match l with
              | [] => List.Forall_nil _
              | x :: r => @List.Forall_cons _ P x r (pyobj_nested_ind x) (go r)
              end) items)
    | PDict items =>
        HDict items
          ((fix go (l : list (pyobj * pyobj)) : Forall (fun kv => P (snd kv)) l :=
              match l with
              | [] => List.Forall_nil _
              | (k, v) :: r =>
                  @List.Forall_cons _ (fun kv => P (snd kv)) (k, v) r (pyobj_nested_ind v) (go r)
              end) items)
    | PInst attrs =>
        HInst attrs
          ((fix go (l : list (string * pyobj)) : Forall (fun kv => P (snd kv)) l :=
              match l with
              | [] => List.Forall_nil _
              | (k, v) :: r =>
                  @List.Forall_cons _ (fun kv => P (snd kv)) (k, v) r (pyobj_nested_ind v) (go r)
              end) attrs)
    end.
End pyobj_nested_ind.

Lemma map_to_dict_idem (l : list pyobj) :
  Forall (fun o => _to_dict (_to_dict o) = _to_dict o) l ->
  map _to_dict (map _to_dict l) = map _to_dict l.
Proof.
  induction 1 as [|o l Ho _ IH]; simpl; [reflexivity|].
  rewrite Ho, IH. reflexivity.
Qed.

Lemma comprehension_all {A B : Type} (f : A -> B) (l : list A) :
  comprehension (fun _ => true) f l = map f l.
Proof. induction l as [|x l IH]; simpl; [reflexivity | now rewrite IH]. Qed.

Lemma to_dict_items_idem (l : list (pyobj * pyobj)) :
  Forall (fun kv => _to_dict (_to_dict (snd kv)) = _to_dict (snd kv)) l ->
  map (fun kv : pyobj * pyobj => let (k, v) := kv in (k, _to_dict v))
    (map (fun kv : pyobj * pyobj => let (k, v) := kv in (k, _to_dict v)) l)
  = map (fun kv : pyobj * pyobj => let (k, v) := kv in (k, _to_dict v)) l.
Proof.
  induction 1 as [|[k v] l Hv _ IH]; simpl in *; [reflexivity|].
  rewrite Hv, IH. reflexivity.
Qed.

Lemma to_dict_attrs_idem (l : list (string * pyobj)) :
  let conv := comprehension
                (fun kv : string * pyobj => negb (startswith_underscore (fst kv)))
                (fun kv : string * pyobj => let (k, v) := kv in (PStr k, _to_dict v)) in
  Forall (fun kv => _to_dict (_to_dict (snd kv)) = _to_dict (snd kv)) l ->
  map (fun kv : pyobj * pyobj => let (k, v) := kv in (k, _to_dict v)) (conv l)
  = conv l.
Proof.
  intros conv. induction 1 as [|[k v] l Hv _ IH]; simpl in *; [reflexivity|].
  destruct (startswith_underscore k); simpl; [exact IH|].
  rewrite Hv. f_equal. exact IH.
Qed.

Lemma to_dict_idempotent (obj : pyobj) :
  _to_dict (_to_dict obj) = _to_dict obj.
Proof.
  induction obj as [ | | | | | items _ | items IH | items IH | attrs IH ]
    using pyobj_nested_ind; simpl; try reflexivity.
  - f_equal. apply map_to_dict_idem, IH.
  - f_equal. apply to_dict_items_idem, IH.
  - f_equal. apply to_dict_attrs_idem, IH.
Qed.

Lemma to_dict_plain_id (obj : pyobj) :
  plain obj = true -> _to_dict obj = obj.
Proof.
  induction obj as [ | | | | | items _ | items IH | items IH | attrs IH ]
    using pyobj_nested_ind; simpl; intros Hp; try reflexivity; try discriminate.
  - f_equal. induction IH as [|o l Ho _ IHl]; simpl in *; [reflexivity|].
    apply andb_prop in Hp as [Hp1 Hp2]. rewrite Ho, IHl by assumption. reflexivity.
  - f_equal. induction IH as [|[k v] l Hv _ IHl]; simpl in *; [reflexivity|].
    apply andb_prop in Hp as [Hp1 Hp2]. rewrite Hv, IHl by assumption. reflexivity.
Qed.

(** C10. [_to_dict] is idempotent: converting the result of a conversion
    changes nothing; and on a value made only of plain dictionaries, lists and
    primitives the conversion returns an equal value. *)
Theorem to_dict_idempotent_and_identity_on_plain :
  forall obj : pyobj,
    _to_dict (_to_dict obj) = _to_dict obj
    /\ (plain obj = true -> _to_dict obj = obj).
Proof.
  intros obj. split; [apply to_dict_idempotent | apply to_dict_plain_id].
Qed.

Lemma to_dict_idempotent_and_identity_on_plain_witness :
  _to_dict sample_play
  = PDict [ (PStr "gamepk", PInt 745444);
            (PStr "allplays",
              PList [ PDict [ (PStr "about", PDict [ (PStr "inning", PInt 1) ]) ] ]);
            (PStr "extra", PDict [ (PStr "k", PTuple [ PInt 1 ]) ]) ]
  /\ _to_dict (_to_dict sample_play) = _to_dict sample_play
  /\ _to_dict (PList [ PInt 1; PDict [ (PStr "a", PNone) ] ])
     = PList [ PInt 1; PDict [ (PStr "a", PNone) ] ].
Proof.
  split; [reflexivity|]. split.
  - exact (proj1 (to_dict_idempotent_and_identity_on_plain sample_play)).
  - apply (proj2 (to_dict_idempotent_and_identity_on_plain
                    (PList [ PInt 1; PDict [ (PStr "a", PNone) ] ]))).
    reflexivity.
Defined.

(** *** What the conversion leaves in its result *)


Definition public (k : string) : bool := negb (startswith_underscore k).



Lemma comprehension_keys (attrs : list (string * pyobj)) :
  map fst
    (comprehension
       (fun kv : string * pyobj => negb (startswith_underscore (fst kv)))
       (fun kv : string * pyobj => let (k, v) := kv in (PStr k, _to_dict v))
       attrs)
  = map PStr (List.filter public (map fst attrs)).
Proof.
  induction attrs as [|[k v] l IH]; simpl; [reflexivity|].
  unfold public at 1. destruct (startswith_underscore k); simpl; [exact IH|].
  rewrite IH. reflexivity.
Qed.

(** X2.  Converting an instance gives a dictionary whose keys are exactly the
    names of its attributes that do not start with an underscore, in
    attribute order; converting a dictionary keeps every key, those that
    start with an underscore too, in order; converting a list keeps its
    length. *)
Theorem to_dict_keys :
  (forall attrs : list (string * pyobj),
      exists items,
        _to_dict (PInst attrs) = PDict items
        /\ map fst items = map PStr (List.filter public (map fst attrs)))
  /\ (forall items : list (pyobj * pyobj),
        exists items',
          _to_dict (PDict items) = PDict items'
          /\ map fst items' = map fst items)
  /\ (forall items : list pyobj,
        exists items',
          _to_dict (PList items) = PList items'
          /\ length items' = length items).
Proof.
  split; [|split].
  - intros attrs. eexists. split; [reflexivity|]. apply comprehension_keys.
  - intros items. eexists. split; [reflexivity|].
    induction items as [|[k v] l IH]; simpl; [reflexivity|]. now rewrite IH.
  - intros items. eexists. split; [reflexivity|]. apply length_map.
Qed.

End ToDict.

(* ===================================================================== *)
(** ** Exceptions and JSON values shared by the two pipelines *)
(* ===================================================================== *)

(** The Python exceptions the embedded code can meet.  [MissingColumns] is the
    [ValueError] of [_load_and_validate_schedule], whose message prints the
    set of missing columns and the set of available ones. *)
Inductive exn : Type :=
| AttributeError
| TypeError
| ValueError (msg : string)
| MissingColumns (missing available : gset string)
| KeyError (labels : list string)
| FileNotFoundError (msg : string)
| OSError
| JSONDecodeError
| RemoteError.

(** The outcome of a Python expression: a value, or a raised exception. *)
Inductive result (A : Type) : Type :=
| Ok (a : A)
| Raise (e : exn).
Arguments Ok {A} a.
Arguments Raise {A} e.

Definition bind {A B : Type} (m : result A) (k : A -> result B) : result B :=
  match m with
  | Ok a => k a
  | Raise e => Raise e
  end.

Notation "'let*' x ':=' m 'in' k" := (bind m (fun x => k))
  (at level 10, x name, m at level 100, k at level 200).

(** What [json.load] returns.  An object is kept as its members in document
    order; [json.load] leaves one member per key, so a lookup that takes the
    first match is the dictionary lookup. *)
Inductive json : Type :=
| JNull
| JBool (b : bool)
| JInt (z : Z)
| JFloat (q : Q)
| JStr (s : string)
| JList (items : list json)
| JDict (members : list (string * json)).

(** Python truth value of a JSON value ([if v:], [if not v:]). *)
Definition truthy (v : json) : bool :=
  match v with
  | JNull => false
  | JBool b => b
  | JInt z => negb (Z.eqb z 0)
  | JFloat q => negb (Qeq_bool q 0)
  | JStr s => negb (String.eqb s "")
  | JList items => match items with [] => false | _ => true end
  | JDict members => match members with [] => false | _ => true end
  end.

(** [v is None] *)
Definition is_none (v : json) : bool :=
  match v with JNull => true | _ => false end.

Definition dict_get (members : list (string * json)) (key : string)
  (default : json) : json :=
  match List.find (fun kv => String.eqb (fst kv) key) members with
  | Some kv => snd kv
  | None => default
  end.

(** [obj.get(key, default)]: only a dictionary has the method. *)
Definition py_get (obj : json) (key : string) (default : json) : result json :=
  match obj with
  | JDict members => Ok (dict_get members key default)
  | _ => Raise AttributeError
  end.

Definition chars (s : string) : list json :=
  map (fun c => JStr (String c EmptyString)) (list_ascii_of_string s).

(** [for x in v]: a list yields its items, a dictionary its keys, a string
    its characters; nothing else is iterable. *)
Definition py_iter (v : json) : result (list json) :=
  match v with
  | JList items => Ok items
  | JDict members => Ok (map (fun kv => JStr (fst kv)) members)
  | JStr s => Ok (chars s)
  | _ => Raise TypeError
  end.

(* ===================================================================== *)
(** ** c_get_mlb_pbp_stats.py: event extractor and compilation pass *)
(* ===================================================================== *)

Module Stats.

Definition MIN_FILE_SIZE : Z := 100.
Definition HOME_TEAM_COORD_X : R := 125.
Definition HOME_TEAM_COORD_Y : R := 199.

(** [np.arctan2(y, x)] on real numbers: the angle of the point [(x, y)],
    in the interval (-PI, PI], and 0 at the origin. *)
Definition arctan2 (y x : R) : R :=
  if Rlt_dec 0 x then atan (y / x)
  else if Rlt_dec x 0 then
         if Rle_dec 0 y then (atan (y / x) + PI)%R else (atan (y / x) - PI)%R
       else if Rlt_dec 0 y then (PI / 2)%R
            else if Rlt_dec y 0 then (- PI / 2)%R
                 else 0%R.

(** [np.degrees] *)
Definition degrees (a : R) : R := (a * 180 / PI)%R.

(** The constant fields of a play, as [_extract_play_constants] returns them. *)
Record play_constants : Type := {
  start_time : json;
  end_time : json;
  home_team : json;
  half_inning : json;
  inning : json;
  at_bat_index : json;
  outcome : json;
  description : json;
  batter_id : json;
  batter_hand : json;
  batter_name : json;
  pitcher_id : json;
  pitcher_hand : json;
  pitcher_name : json
}.

(** The hit fields of an event, as [_extract_hit_data] returns them. *)
Record hit_data : Type := {
  count_outs : json;
  count_balls : json;
  count_strikes : json;
  location : json;
  launch_speed : json;
  launch_angle : json;
  hit_trajectory : json;
  hit_hardness : json;
  total_distance : json;
  hit_location_x : json;
  hit_location_y : json;
  hit_sector : string;
  hit_distance : R;
  spray_angle : R
}.

(** A Hit Event Record: [{**constants, **hit_data}]; the two key sets are
    disjoint, so the merge keeps every field of both. *)
Record hit_event_record : Type := {
  row_constants : play_constants;
  row_hit : hit_data
}.

(** One cached game file as the compilation pass sees it: what
    [filepath.stat().st_size] gives and what [json.load] gives. *)
Record game_file : Type := {
  file_name : string;
  st_size : result Z;
  load : result json
}.

(** The season folder: absent, not a directory, or the files that
    [glob("*.json")] lists, in that order. *)
Inductive folder_state : Type :=
| FolderMissing
| FolderNotDir
| Folder (json_files : list game_file).

Section Extractor.

(** [get_spray_sector] of MLB_CODE.statcast_utils, whose text is not part of
    the sources at hand: a function from the angle to the sector label. *)
Variable get_spray_sector : R -> string.

(** [float(s)] on a string: the number it denotes, when it denotes one. *)
Variable float_of_str : string -> option R.

(** [float(v)] *)
Definition py_float (v : json) : result R :=
  match v with
  | JInt z => Ok (IZR z)
  | JFloat q => Ok (Q2R q)
  | JBool b => Ok (if b then 1%R else 0%R)
  | JStr s =>
      match float_of_str s with
      | Some r => Ok r
      | None => Raise (ValueError "could not convert string to float")
      end
  | JNull | JList _ | JDict _ => Raise TypeError
  end.

(** [_extract_home_team_id]: the inner loop over one inning's home entries.
    [Some id] is the [return home_id] of the source. *)
Fixpoint scan_home_hits (home_team_hits : list json) : result (option json) :=
  match home_team_hits with
  | [] => Ok None
  | team :: rest =>
      let* t := py_get team "team" (JDict []) in
      let* home_id := py_get t "id" JNull in
      if is_none home_id then scan_home_hits rest else Ok (Some home_id)
  end.

(** [_extract_home_team_id]: the outer loop over the innings. *)
Fixpoint scan_innings (innings : list json) : result json :=
  match innings with
  | [] => Ok JNull
  | inning :: rest =>
      let* hits := py_get inning "hits" (JDict []) in
      let* home := py_get hits "home" (JList []) in
      let* home_team_hits := py_iter home in
      let* found := scan_home_hits home_team_hits in
      match found with
      | Some home_id => Ok home_id
      | None => scan_innings rest
      end
  end.

(** [_extract_home_team_id(playsbyinning)], lines 168-184. *)
Definition _extract_home_team_id (playsbyinning : json) : result json :=
  let* innings := py_iter playsbyinning in
  scan_innings innings.

(** [_extract_play_constants(play, home_id)], lines 187-217. *)
Definition _extract_play_constants (play : json) (home_id : json)
  : result play_constants :=
  let* about := py_get play "about" (JDict []) in
  let* res := py_get play "result" (JDict []) in
  let* matchup := py_get play "matchup" (JDict []) in
  let* starttime := py_get about "starttime" (JStr "") in
  let* endtime := py_get about "endtime" (JStr "") in
  let* halfinning := py_get about "halfinning" (JStr "") in
  let* inn := py_get about "inning" (JStr "") in
  let* atbatindex := py_get about "atbatindex" (JStr "") in
  let* eventtype := py_get res "eventtype" (JStr "") in
  let* descr := py_get res "description" (JStr "") in
  let* batter := py_get matchup "batter" (JDict []) in
  let* bid := py_get batter "id" JNull in
  let* batside := py_get matchup "batside" (JDict []) in
  let* bhand := py_get batside "code" JNull in
  let* batter' := py_get matchup "batter" (JDict []) in
  let* bname := py_get batter' "fullname" JNull in
  let* pitcher := py_get matchup "pitcher" (JDict []) in
  let* pid := py_get pitcher "id" JNull in
  let* pitchhand := py_get matchup "pitchhand" (JDict []) in
  let* phand := py_get pitchhand "code" JNull in
  let* pitcher' := py_get matchup "pitcher" (JDict []) in
  let* pname := py_get pitcher' "fullname" JNull in
  Ok {| start_time := starttime; end_time := endtime; home_team := home_id;
        half_inning := halfinning; inning := inn; at_bat_index := atbatindex;
        outcome := eventtype; description := descr;
        batter_id := bid; batter_hand := bhand; batter_name := bname;
        pitcher_id := pid; pitcher_hand := phand; pitcher_name := pname |}.

(** [_extract_hit_data(event)], lines 220-264.  [None] is the early return
    on a missing coordinate. *)
Definition _extract_hit_data (event : json) : result (option hit_data) :=
  let* hitdata := py_get event "hitdata" (JDict []) in
  let* coordinates := py_get hitdata "coordinates" (JDict []) in
  let* coordx := py_get coordinates "coordx" JNull in
  let* coordy := py_get coordinates "coordy" JNull in
  if is_none coordx || is_none coordy then Ok None
  else
    let* fx := py_float coordx in
    let delta_x := (fx - HOME_TEAM_COORD_X)%R in
    let* fy := py_float coordy in
    let delta_y := (fy - HOME_TEAM_COORD_Y)%R in
    let angle := degrees (arctan2 delta_x delta_y) in
    let distance := sqrt (delta_x ^ 2 + delta_y ^ 2) in
    let* count := py_get event "count" (JDict []) in
    let* outs := py_get count "outs" JNull in
    let* balls := py_get count "balls" JNull in
    let* strikes := py_get count "strikes" JNull in
    let* loc := py_get hitdata "location" JNull in
    let* launchspeed := py_get hitdata "launchspeed" JNull in
    let* launchangle := py_get hitdata "launchangle" JNull in
    let* trajectory := py_get hitdata "trajectory" JNull in
    let* hardness := py_get hitdata "hardness" JNull in
    let* totaldistance := py_get hitdata "totaldistance" JNull in
    Ok (Some {| count_outs := outs; count_balls := balls;
                count_strikes := strikes; location := loc;
                launch_speed := launchspeed; launch_angle := launchangle;
                hit_trajectory := trajectory; hit_hardness := hardness;
                total_distance := totaldistance;
                hit_location_x := coordx; hit_location_y := coordy;
                hit_sector := get_spray_sector angle;
                hit_distance := distance; spray_angle := angle |}).

(** The body of the loop over a play's events, up to the append: the hit
    data of an event that is in play and has coordinates.  The dictionary
    [_extract_hit_data] returns is never empty, so [if hit_data:] tests that
    it is not [None]. *)
Definition event_hit (event : json) : result (option hit_data) :=
  let* details := py_get event "details" (JDict []) in
  let* flag := py_get details "isinplay" JNull in
  if truthy flag then _extract_hit_data event else Ok None.

(** The loop over a play's events.  [data] is the list the caller shares
    with every file: what was appended before an exception stays in it. *)
Fixpoint process_events (constants : play_constants) (events : list json)
  (data : list hit_event_record) : list hit_event_record * result unit :=
  match events with
  | [] => (data, Ok tt)
  | event :: rest =>
      match event_hit event with
      | Raise e => (data, Raise e)
      | Ok None => process_events constants rest data
      | Ok (Some hit) =>
          process_events constants rest
            (data ++ [ {| row_constants := constants; row_hit := hit |} ])
      end
  end.

(** What the loop over the plays reads of one play before it walks the
    events. *)
Definition play_head (play : json) (home_id : json)
  : result (play_constants * list json) :=
  let* play_events := py_get play "playevents" (JList []) in
  let* constants := _extract_play_constants play home_id in
  let* events := py_iter play_events in
  Ok (constants, events).

(** The loop over the plays of a game. *)
Fixpoint process_plays (home_id : json) (plays : list json)
  (data : list hit_event_record) : list hit_event_record * result unit :=
  match plays with
  | [] => (data, Ok tt)
  | play :: rest =>
      match play_head play home_id with
      | Raise e => (data, Raise e)
      | Ok (constants, events) =>
          match process_events constants events data with
          | (data', Ok _) => process_plays home_id rest data'
          | (data', Raise e) => (data', Raise e)
          end
      end
  end.

(** The part of [_process_game_file] that follows [json.load]. *)
Definition process_game_data (game_data : json)
  (data : list hit_event_record) : list hit_event_record * result unit :=
  match py_get game_data "allplays" (JList []) with
  | Raise e => (data, Raise e)
  | Ok all_plays =>
      match py_get game_data "playsbyinning" (JList []) with
      | Raise e => (data, Raise e)
      | Ok playsbyinning =>
          if negb (truthy all_plays) then (data, Ok tt)
          else
            match _extract_home_team_id playsbyinning with
            | Raise e => (data, Raise e)
            | Ok home_id =>
                match py_iter all_plays with
                | Raise e => (data, Raise e)
                | Ok plays => process_plays home_id plays data
                end
            end
      end
  end.

(** [_process_game_file(filepath, data)], lines 123-165. *)
Definition _process_game_file (filepath : game_file)
  (data : list hit_event_record) : list hit_event_record * result unit :=
  match st_size filepath with
  | Raise e => (data, Raise e)
  | Ok size =>
      if size <? MIN_FILE_SIZE then (data, Ok tt)
      else
        match load filepath with
        | Raise e => (data, Raise e)
        | Ok game_data => process_game_data game_data data
        end
  end.

(** The loop of [compile_play_events] over the files: an exception of one
    file is logged as a warning (the file's name is recorded) and the loop
    goes on. *)
Fixpoint compile_loop (json_files : list game_file)
  (data : list hit_event_record) (warnings : list string)
  : list hit_event_record * list string :=
  match json_files with
  | [] => (data, warnings)
  | filepath :: rest =>
      match _process_game_file filepath data with
      | (data', Ok _) => compile_loop rest data' warnings
      | (data', Raise _) =>
          compile_loop rest data' (warnings ++ [file_name filepath])
      end
  end.

Definition NO_HIT_EVENTS : string := "No hit events extracted from any files".

(** [compile_play_events(folder_path, season_year)], lines 19-75: the table
    (the rows of the data frame) or the error raised, with the warnings
    logged on the way. *)
Definition compile_play_events (folder : folder_state)
  : result (list hit_event_record) * list string :=
  match folder with
  | FolderMissing => (Raise (ValueError "Folder path does not exist"), [])
  | FolderNotDir => (Raise (ValueError "Path is not a directory"), [])
  | Folder json_files =>
      match json_files with
      | [] => (Raise (ValueError "No JSON files found"), [])
      | _ =>
          let (data, warnings) := compile_loop json_files [] [] in
          match data with
          | [] => (Raise (ValueError NO_HIT_EVENTS), warnings)
          | _ => (Ok data, warnings)
          end
      end
  end.

(** *** The document as the specification reads it

    Lookups that answer [JNull] where the member is missing or is not where a
    dictionary is expected, and lists that are empty where no list is found:
    the Play Events of a document and their optional members. *)

Definition member (obj : json) (key : string) : json :=
  match obj with
  | JDict members => dict_get members key JNull
  | _ => JNull
  end.

Definition items_of (v : json) : list json :=
  match v with
  | JList items => items
  | _ => []
  end.

Definition plays_of (game_data : json) : list json :=
  items_of (member game_data "allplays").


















(** *** Concrete documents *)

(** A sector function and a reading of numeric strings to run the extractor
    with; no document below holds a coordinate that is a string. *)
Definition center_field_only : R -> string := fun _ => "CF".
Definition no_numeric_strings : string -> option R := fun _ => None.

Definition event_in_play (x y : Q) : json :=
  JDict [ ("details", JDict [ ("isinplay", JBool true) ]);
          ("count", JDict [ ("balls", JInt 1); ("strikes", JInt 2);
                            ("outs", JInt 0) ]);
          ("hitdata", JDict [ ("launchspeed", JFloat 101.5);
                              ("coordinates",
                                JDict [ ("coordx", JFloat x);
                                        ("coordy", JFloat y) ]) ]) ].

Definition event_ball : json :=
  JDict [ ("details", JDict [ ("isinplay", JBool false) ]);
          ("hitdata", JNull) ].

Definition event_in_play_no_location : json :=
  JDict [ ("details", JDict [ ("isinplay", JBool true) ]);
          ("hitdata", JDict [ ("coordinates",
                                JDict [ ("coordx", JNull);
                                        ("coordy", JFloat 80) ]) ]) ].

(** In play, and the hit data member is null. *)
Definition event_in_play_null_hitdata : json :=
  JDict [ ("details", JDict [ ("isinplay", JBool true) ]);
          ("hitdata", JNull) ].

Definition sample_breakdown : json :=
  JList [ JDict [ ("hits", JDict [ ("home", JList []);
                                    ("away", JList [ JDict [ ("team", JDict [ ("id", JInt 111) ]) ] ]) ]) ];
          JDict [ ("hits", JDict [ ("home",
                                     JList [ JDict [ ("team", JDict [ ("id", JNull) ]) ];
                                             JDict [ ("team", JDict [ ("id", JInt 147) ]) ];
                                             JDict [ ("team", JDict [ ("id", JInt 999) ]) ] ]) ]) ] ].

Definition sample_game : json :=
  JDict [ ("allplays",
            JList [ JDict [ ("about", JDict [ ("inning", JInt 1) ]);
                            ("playevents",
                              JList [ event_ball; event_in_play 150 175 ]) ];
                    JDict [ ("playevents",
                              JList [ event_in_play_no_location ]) ] ]);
          ("playsbyinning", sample_breakdown) ].

Definition sample_file : game_file :=
  {| file_name := "GAMEPK_745444_NYY_VS_BOS.json";
     st_size := Ok 4096;
     load := Ok sample_game |}.

Definition small_file : game_file :=
  {| file_name := "GAMEPK_745445_NYY_VS_BOS.json";
     st_size := Ok 2;
     load := Ok (JDict []) |}.

(** A game whose first event in play has a null hit data member and whose
    second event is in play with both coordinates. *)
Definition null_hitdata_game : json :=
  JDict [ ("allplays",
            JList [ JDict [ ("playevents",
                              JList [ event_in_play_null_hitdata;
                                      event_in_play 150 175 ]) ] ]) ].

Definition null_hitdata_file : game_file :=
  {| file_name := "GAMEPK_1_AAA_VS_BBB.json";
     st_size := Ok 4096;
     load := Ok null_hitdata_game |}.

(** *** The extractor against the specification's reading *)




Lemma get_list_items obj key v events :
  py_get obj key (JList []) = Ok v ->
  py_iter v = Ok events ->
  events = items_of (member obj key)
  \/ (items_of (member obj key) = [] /\ exists s rest, events = JStr s :: rest).
Proof.
  intros H Hi.
  destruct obj; try discriminate H. simpl in *.
  injection H as <-. unfold dict_get in *.
  destruct (List.find _ members) as [kv|]; simpl in *.
  - destruct (snd kv) as [ | | | | s | items | ms ]; simpl in *; try discriminate Hi;
      injection Hi as <-.
    + destruct s as [|c s]; [left; reflexivity|].
      right. split; [reflexivity|]. simpl. eauto.
    + left; reflexivity.
    + destruct ms as [|[k w] ms]; [left; reflexivity|].
      right. split; [reflexivity|]. simpl. eauto.
  - injection Hi as <-. left; reflexivity.
Qed.


Ltac bind_step H :=
  match type of H with
  | bind ?m _ = Ok _ =>
      let E := fresh "E" in
      destruct m eqn:E; cbn [bind] in H; [|discriminate H]
  end.



Lemma event_hit_str s : exists e, event_hit (JStr s) = Raise e.
Proof. eexists. reflexivity. Qed.






















(** *** Geometry on real numbers *)

Lemma arctan2_origin : arctan2 0 0 = 0%R.
Proof.
  unfold arctan2.
  destruct (Rlt_dec 0 0) as [H|_]; [lra|].
  destruct (Rlt_dec 0 0) as [H|_]; [lra|]. reflexivity.
Qed.

Lemma arctan2_zero_negative (x : R) : (x < 0)%R -> arctan2 0 x = PI.
Proof.
  intros Hx. unfold arctan2.
  destruct (Rlt_dec 0 x) as [H|_]; [lra|].
  destruct (Rlt_dec x 0) as [_|H]; [|lra].
  destruct (Rle_dec 0 0) as [_|H]; [|lra].
  replace (0 / x)%R with 0%R by (unfold Rdiv; ring).
  rewrite atan_0. ring.
Qed.

Lemma degrees_0 : degrees 0 = 0%R.
Proof. unfold degrees, Rdiv. ring. Qed.

Lemma degrees_PI : degrees PI = 180%R.
Proof. unfold degrees. field. apply PI_neq0. Qed.

Lemma extract_hit_data_geometry event hit :
  _extract_hit_data event = Ok (Some hit) ->
  exists x y : R,
    py_float (hit_location_x hit) = Ok x
    /\ py_float (hit_location_y hit) = Ok y
    /\ spray_angle hit = degrees (arctan2 (x - 125) (y - 199))
    /\ hit_distance hit = sqrt ((x - 125) ^ 2 + (y - 199) ^ 2).
Proof.
  unfold _extract_hit_data. intros H.
  do 4 bind_step H.
  destruct (is_none a1 || is_none a2); [discriminate H|].
  bind_step H. rename a3 into x, E3 into Ex.
  bind_step H. rename a3 into y, E3 into Ey.
  repeat bind_step H. injection H as <-. simpl.
  exists x, y. repeat split; assumption.
Qed.


(** C2.  The spray angle and the hit distance of a Hit Event Record are
    computed from the record's own coordinates x and y and the reference point
    (125, 199): the angle is atan2(x - 125, y - 199) in degrees, the distance
    is sqrt((x - 125)^2 + (y - 199)^2).  At the reference point both are 0;
    at (125, 99) the angle is 180 degrees and the distance is 100.  Numbers
    are real numbers here: rounding and overflow of the floating-point
    operations are outside the model. *)
Theorem spray_angle_and_distance_from_coordinates :
  forall (event : json) (hit : hit_data),
    _extract_hit_data event = Ok (Some hit) ->
    (exists x y : R,
        py_float (hit_location_x hit) = Ok x
        /\ py_float (hit_location_y hit) = Ok y
        /\ spray_angle hit = degrees (arctan2 (x - 125) (y - 199))
        /\ hit_distance hit = sqrt ((x - 125) ^ 2 + (y - 199) ^ 2))
    /\ (py_float (hit_location_x hit) = Ok 125%R ->
        py_float (hit_location_y hit) = Ok 199%R ->
        hit_distance hit = 0%R /\ spray_angle hit = 0%R)
    /\ (py_float (hit_location_x hit) = Ok 125%R ->
        py_float (hit_location_y hit) = Ok 99%R ->
        spray_angle hit = 180%R /\ hit_distance hit = 100%R).
Proof.
  intros event hit H.
  destruct (extract_hit_data_geometry event hit H) as (x & y & Hx & Hy & Ha & Hd).
  split; [exists x, y; auto|]. split; intros Hx' Hy'.
  - rewrite Hx in Hx'. rewrite Hy in Hy'.
    injection Hx' as ->. injection Hy' as ->.
    rewrite Ha, Hd. split.
    + replace ((125 - 125) ^ 2 + (199 - 199) ^ 2)%R with 0%R by ring.
      apply sqrt_0.
    + replace (125 - 125)%R with 0%R by ring.
      replace (199 - 199)%R with 0%R by ring.
      rewrite arctan2_origin. apply degrees_0.
  - rewrite Hx in Hx'. rewrite Hy in Hy'.
    injection Hx' as ->. injection Hy' as ->.
    rewrite Ha, Hd. split.
    + replace (125 - 125)%R with 0%R by ring.
      rewrite arctan2_zero_negative by lra. apply degrees_PI.
    + replace ((125 - 125) ^ 2 + (99 - 199) ^ 2)%R with (100 * 100)%R by ring.
      apply sqrt_square. lra.
Qed.

(** C6.  The compilation pass never returns an empty table: when the files of
    the season produce no Hit Event Record at all it raises the ValueError
    "No hit events extracted from any files". *)
Theorem empty_compilation_is_an_error :
  forall folder : folder_state,
    (forall warnings, compile_play_events folder <> (Ok [], warnings))
    /\ (forall json_files,
          folder = Folder json_files ->
          json_files <> [] ->
          fst (compile_loop json_files [] []) = [] ->
          fst (compile_play_events folder) = Raise (ValueError NO_HIT_EVENTS)).
Proof.
  intros folder. split.
  - intros warnings. unfold compile_play_events.
    destruct folder as [ | | json_files]; try discriminate.
    destruct json_files as [|f fs]; [discriminate|].
    destruct (compile_loop (f :: fs) [] []) as [data ws].
    destruct data; discriminate.
  - intros json_files -> Hne Hempty. unfold compile_play_events.
    destruct json_files as [|f fs]; [congruence|].
    destruct (compile_loop (f :: fs) [] []) as [data ws].
    simpl in Hempty. subst data. reflexivity.
Qed.


(** *** What a file adds does not depend on what was compiled before *)

(** The records a game file yields, and whether processing it raises. *)
Definition file_rows (filepath : game_file) : list hit_event_record :=
  fst (_process_game_file filepath []).

Definition file_raises (filepath : game_file) : bool :=
  match snd (_process_game_file filepath []) with
  | Raise _ => true
  | Ok _ => false
  end.

Lemma process_events_frame constants events :
  forall data,
    process_events constants events data
    = (data ++ fst (process_events constants events []),
       snd (process_events constants events [])).
Proof.
  induction events as [|event events IH]; intros data; simpl.
  - rewrite app_nil_r. reflexivity.
  - destruct (event_hit event) as [[hit|]|e]; simpl.
    + rewrite (IH (data ++ _)), (IH [ _ ]). simpl.
      rewrite <- app_assoc. reflexivity.
    + apply IH.
    + rewrite app_nil_r. reflexivity.
Qed.

Lemma process_plays_frame home_id plays :
  forall data,
    process_plays home_id plays data
    = (data ++ fst (process_plays home_id plays []),
       snd (process_plays home_id plays [])).
Proof.
  induction plays as [|play plays IH]; intros data; simpl.
  - rewrite app_nil_r. reflexivity.
  - destruct (play_head play home_id) as [[constants events]|e]; simpl.
    2:{ rewrite app_nil_r. reflexivity. }
    rewrite (process_events_frame constants events data).
    destruct (process_events constants events []) as [rows [u|e]]; simpl.
    + rewrite (IH (data ++ rows)), (IH rows). simpl.
      rewrite <- app_assoc. reflexivity.
    + reflexivity.
Qed.

Lemma process_game_data_frame game_data data :
  process_game_data game_data data
  = (data ++ fst (process_game_data game_data []),
     snd (process_game_data game_data [])).
Proof.
  unfold process_game_data.
  destruct (py_get game_data "allplays" (JList []));
    [|simpl; rewrite app_nil_r; reflexivity].
  destruct (py_get game_data "playsbyinning" (JList []));
    [|simpl; rewrite app_nil_r; reflexivity].
  destruct (negb (truthy a)); [simpl; rewrite app_nil_r; reflexivity|].
  destruct (_extract_home_team_id a0);
    [|simpl; rewrite app_nil_r; reflexivity].
  destruct (py_iter a); [|simpl; rewrite app_nil_r; reflexivity].
  apply process_plays_frame.
Qed.

Lemma process_game_file_frame filepath data :
  _process_game_file filepath data
  = (data ++ file_rows filepath,
     snd (_process_game_file filepath [])).
Proof.
  unfold file_rows, _process_game_file.
  destruct (st_size filepath); [|simpl; rewrite app_nil_r; reflexivity].
  destruct (a <? MIN_FILE_SIZE); [simpl; rewrite app_nil_r; reflexivity|].
  destruct (load filepath); [|simpl; rewrite app_nil_r; reflexivity].
  apply process_game_data_frame.
Qed.

(** X3.  What [_process_game_file] does with a file does not depend on the
    records already in the shared list: it appends the same records, after
    those present, and ends the same way (normally or with the same
    exception) as on an empty list. *)
Theorem process_game_file_appends_independently :
  forall (filepath : game_file) (data : list hit_event_record),
    _process_game_file filepath data
    = (data ++ fst (_process_game_file filepath []),
       snd (_process_game_file filepath [])).
Proof. intros filepath data. apply process_game_file_frame. Qed.

Lemma compile_loop_spec json_files :
  forall data warnings,
    compile_loop json_files data warnings
    = (data ++ flat_map file_rows json_files,
       warnings ++ map file_name (List.filter file_raises json_files)).
Proof.
  induction json_files as [|f rest IH]; intros data warnings; simpl.
  - rewrite !app_nil_r. reflexivity.
  - rewrite (process_game_file_frame f data). unfold file_raises.
    destruct (snd (_process_game_file f [])) as [u|e]; rewrite IH.
    + rewrite <- app_assoc. reflexivity.
    + simpl. rewrite <- !app_assoc. reflexivity.
Qed.

(** X4.  For a season folder that holds at least one JSON file, the table
    [compile_play_events] returns is the records of the files one after the
    other, in the order of the files, each file giving what it gives on its
    own (a file whose processing raises still gives the records appended
    before the exception); the result is the empty-result error exactly when
    that list is empty; and the warnings logged are the names of the files
    whose processing raised, in order. *)
Theorem compile_play_events_concatenates_files :
  forall json_files : list game_file,
    json_files <> [] ->
    compile_play_events (Folder json_files)
    = (match flat_map file_rows json_files with
       | [] => Raise (ValueError NO_HIT_EVENTS)
       | row :: rows => Ok (row :: rows)
       end,
       map file_name (List.filter file_raises json_files)).
Proof.
  intros json_files Hne. unfold compile_play_events.
  destruct json_files as [|f rest]; [congruence|].
  rewrite compile_loop_spec.
  generalize (flat_map file_rows (f :: rest)).
  generalize (map file_name (List.filter file_raises (f :: rest))).
  intros warnings rows. destruct rows; reflexivity.
Qed.

(** X5.  The loop over the plays composes: when the plays of a first part
    are processed without an exception, processing that part followed by
    more plays is processing the rest from the list the first part left;
    when the first part raises, the records appended before the exception
    stay in the list and no later play is read. *)
Theorem process_plays_composes :
  forall (home_id : json) (plays rest : list json)
         (data : list hit_event_record),
    (forall data1 u,
        process_plays home_id plays data = (data1, Ok u) ->
        process_plays home_id (plays ++ rest) data
        = process_plays home_id rest data1)
    /\ (forall data1 e,
          process_plays home_id plays data = (data1, Raise e) ->
          process_plays home_id (plays ++ rest) data = (data1, Raise e)).
Proof.
  intros home_id plays rest.
  induction plays as [|play plays IH]; intros data; split.
  - intros data1 u H. simpl in H. injection H as <- _. reflexivity.
  - intros data1 e H. discriminate H.
  - intros data1 u H. simpl in *.
    destruct (play_head play home_id) as [[constants events]|e];
      [|discriminate H].
    destruct (process_events constants events data) as [d [u'|e]];
      [|discriminate H].
    apply (proj1 (IH d)) in H. exact H.
  - intros data1 e H. simpl in *.
    destruct (play_head play home_id) as [[constants events]|e'];
      [|exact H].
    destruct (process_events constants events data) as [d [u'|e']];
      [|exact H].
    apply (proj2 (IH d)) in H. exact H.
Qed.

(** *** The exceptions the extractor can raise *)

(** The exceptions of the lookups: [.get] on a value that is not a
    dictionary, iteration or [float] on a value that cannot be, and [float]
    on a string that is not a number. *)
Definition lookup_error (e : exn) : Prop :=
  e = AttributeError
  \/ e = TypeError
  \/ e = ValueError "could not convert string to float".

Lemma py_get_raise obj key default e :
  py_get obj key default = Raise e -> lookup_error e.
Proof. destruct obj; simpl; intros H; try discriminate H; injection H as <-; left; reflexivity. Qed.

Lemma py_iter_raise v e : py_iter v = Raise e -> lookup_error e.
Proof.
  destruct v; simpl; intros H; try discriminate H; injection H as <-;
    right; left; reflexivity.
Qed.

Lemma py_float_raise v e : py_float v = Raise e -> lookup_error e.
Proof.
  destruct v; simpl; intros H; try discriminate H;
    try (injection H as <-; right; left; reflexivity).
  destruct (float_of_str s); [discriminate H|].
  injection H as <-. right; right; reflexivity.
Qed.

Create HintDb raises.
#[local] Hint Resolve py_get_raise py_iter_raise py_float_raise : raises.

Ltac raise_step H :=
  match type of H with
  | bind ?m _ = Raise _ =>
      let E := fresh "E" in
      destruct m eqn:E; cbn [bind] in H;
      [ | injection H as <-; solve [eauto with raises] ]
  end.

Lemma scan_home_hits_raise entries e :
  scan_home_hits entries = Raise e -> lookup_error e.
Proof.
  induction entries as [|entry entries IH]; simpl; intros H; [discriminate H|].
  do 2 raise_step H. destruct (is_none a0); [auto | discriminate H].
Qed.
#[local] Hint Resolve scan_home_hits_raise : raises.

Lemma scan_innings_raise innings e :
  scan_innings innings = Raise e -> lookup_error e.
Proof.
  induction innings as [|inning innings IH]; simpl; intros H; [discriminate H|].
  do 4 raise_step H. destruct a2; [discriminate H | auto].
Qed.
#[local] Hint Resolve scan_innings_raise : raises.


Lemma extract_play_constants_raise play home_id e :
  _extract_play_constants play home_id = Raise e -> lookup_error e.
Proof.
  unfold _extract_play_constants. intros H.
  repeat raise_step H. discriminate H.
Qed.
#[local] Hint Resolve extract_play_constants_raise : raises.








(** *** Range and symmetry of the derived geometry *)



Lemma arctan2_mirror (y x : R) :
  (y <> 0)%R -> arctan2 (- y) x = (- arctan2 y x)%R.
Proof.
  intros Hy. unfold arctan2.
  replace (- y / x)%R with (- (y / x))%R by (unfold Rdiv; ring).
  rewrite atan_opp.
  destruct (Rlt_dec 0 x) as [Hx|Hx]; [reflexivity|].
  destruct (Rlt_dec x 0) as [Hx'|Hx'].
  - destruct (Rle_dec 0 (- y)), (Rle_dec 0 y); try lra.
  - destruct (Rlt_dec 0 (- y)), (Rlt_dec 0 y), (Rlt_dec (- y) 0),
      (Rlt_dec y 0); lra.
Qed.



(** X7.  The hit distance of a Hit Event Record is never negative, and it is
    0 exactly when the record's coordinates are the reference point
    (125, 199). *)
Theorem hit_distance_zero_only_at_home_plate :
  forall (event : json) (hit : hit_data),
    _extract_hit_data event = Ok (Some hit) ->
    exists x y : R,
      py_float (hit_location_x hit) = Ok x
      /\ py_float (hit_location_y hit) = Ok y
      /\ (0 <= hit_distance hit)%R
      /\ (hit_distance hit = 0%R <-> x = 125%R /\ y = 199%R).
Proof.
  intros event hit H.
  destruct (extract_hit_data_geometry event hit H) as (x & y & Hx & Hy & _ & Hd).
  exists x, y. split; [exact Hx|]. split; [exact Hy|]. rewrite Hd.
  split; [apply sqrt_pos|].
  replace ((x - 125) ^ 2 + (y - 199) ^ 2)%R
    with ((x - 125) * (x - 125) + (y - 199) * (y - 199))%R by ring.
  split.
  - intros H0.
    change ((x - 125) * (x - 125) + (y - 199) * (y - 199))%R
      with (Rsqr (x - 125) + Rsqr (y - 199))%R in H0.
    apply sqrt_eq_0 in H0;
      [|apply Rplus_le_le_0_compat; apply Rle_0_sqr].
    apply Rplus_sqr_eq_0 in H0 as [H1 H2]. split; lra.
  - intros [-> ->].
    replace ((125 - 125) * (125 - 125) + (199 - 199) * (199 - 199))%R
      with 0%R by ring.
    apply sqrt_0.
Qed.


(** X9.  Two Hit Event Records whose coordinates mirror each other in the
    vertical line through home plate (same y, x at the same distance on
    either side of 125, and not on the line) have the same hit distance and
    opposite spray angles. *)
Theorem mirrored_hits_have_opposite_angles :
  forall (event event' : json) (hit hit' : hit_data) (x x' y : R),
    _extract_hit_data event = Ok (Some hit) ->
    _extract_hit_data event' = Ok (Some hit') ->
    py_float (hit_location_x hit) = Ok x ->
    py_float (hit_location_y hit) = Ok y ->
    py_float (hit_location_x hit') = Ok x' ->
    py_float (hit_location_y hit') = Ok y ->
    (x' - 125 = - (x - 125))%R ->
    x <> 125%R ->
    spray_angle hit' = (- spray_angle hit)%R
    /\ hit_distance hit' = hit_distance hit.
Proof.
  intros event event' hit hit' x x' y H H' Hx Hy Hx' Hy' Hm Hne.
  destruct (extract_hit_data_geometry event hit H)
    as (x0 & y0 & Ex & Ey & Ha & Hd).
  destruct (extract_hit_data_geometry event' hit' H')
    as (x1 & y1 & Ex' & Ey' & Ha' & Hd').
  rewrite Hx in Ex. rewrite Hy in Ey. rewrite Hx' in Ex'. rewrite Hy' in Ey'.
  injection Ex as <-. injection Ey as <-. injection Ex' as <-. injection Ey' as <-.
  rewrite Ha, Ha', Hd, Hd', Hm. split.
  - rewrite arctan2_mirror by lra. unfold degrees, Rdiv. ring.
  - f_equal. ring.
Qed.

End Extractor.

(** *** The extractor on the concrete documents *)



Lemma spray_angle_and_distance_from_coordinates_witness :
  exists hit : hit_data,
    _extract_hit_data center_field_only no_numeric_strings (event_in_play 125 99)
    = Ok (Some hit)
    /\ spray_angle hit = 180%R
    /\ hit_distance hit = 100%R.
Proof.
  eexists. split; [reflexivity|].
  apply (proj2 (proj2 (spray_angle_and_distance_from_coordinates
                         center_field_only no_numeric_strings
                         (event_in_play 125 99) _ eq_refl))).
  - simpl. f_equal. unfold Q2R. simpl. lra.
  - simpl. f_equal. unfold Q2R. simpl. lra.
Defined.

Lemma empty_compilation_is_an_error_witness :
  fst (compile_play_events center_field_only no_numeric_strings
         (Folder [small_file]))
  = Raise (ValueError NO_HIT_EVENTS).
Proof.
  apply (proj2 (empty_compilation_is_an_error
                  center_field_only no_numeric_strings (Folder [small_file]))
           [small_file] eq_refl).
  - discriminate.
  - reflexivity.
Defined.


(** The season folder of the specification's scenario: one game file with one
    event in play at (150, 175) next to other events, and one file below the
    minimum size, compile to one Hit Event Record and no warning. *)
Lemma compile_sample_folder :
  exists row,
    compile_play_events center_field_only no_numeric_strings
      (Folder [ sample_file; small_file ])
    = (Ok [ row ], [])
    /\ hit_location_x (row_hit row) = JFloat 150
    /\ hit_location_y (row_hit row) = JFloat 175
    /\ home_team (row_constants row) = JInt 147.
Proof. eexists. repeat split. Qed.

Lemma compile_play_events_concatenates_files_witness :
  compile_play_events center_field_only no_numeric_strings
    (Folder [ null_hitdata_file; sample_file; small_file ])
  = (match flat_map (file_rows center_field_only no_numeric_strings)
             [ null_hitdata_file; sample_file; small_file ] with
     | [] => Raise (ValueError NO_HIT_EVENTS)
     | row :: rows => Ok (row :: rows)
     end,
     [ "GAMEPK_1_AAA_VS_BBB.json" ]).
Proof.
  apply (compile_play_events_concatenates_files center_field_only
           no_numeric_strings [ null_hitdata_file; sample_file; small_file ]).
  discriminate.
Defined.

Lemma process_plays_composes_witness :
  process_plays center_field_only no_numeric_strings (JInt 147)
    (plays_of sample_game ++ plays_of null_hitdata_game) []
  = process_plays center_field_only no_numeric_strings (JInt 147)
      (plays_of null_hitdata_game)
      (fst (process_plays center_field_only no_numeric_strings (JInt 147)
              (plays_of sample_game) [])).
Proof.
  apply (proj1 (process_plays_composes center_field_only no_numeric_strings
                  (JInt 147) (plays_of sample_game)
                  (plays_of null_hitdata_game) [])
           _ tt).
  reflexivity.
Defined.


Lemma hit_distance_zero_only_at_home_plate_witness :
  exists hit : hit_data,
    _extract_hit_data center_field_only no_numeric_strings
      (event_in_play 150 175) = Ok (Some hit)
    /\ exists x y : R,
        py_float no_numeric_strings (hit_location_x hit) = Ok x
        /\ py_float no_numeric_strings (hit_location_y hit) = Ok y
        /\ (0 <= hit_distance hit)%R
        /\ (hit_distance hit = 0%R <-> x = 125%R /\ y = 199%R).
Proof.
  eexists. split; [reflexivity|].
  apply (hit_distance_zero_only_at_home_plate center_field_only
           no_numeric_strings (event_in_play 150 175)).
  reflexivity.
Defined.


Lemma mirrored_hits_have_opposite_angles_witness :
  exists hit hit' : hit_data,
    _extract_hit_data center_field_only no_numeric_strings
      (event_in_play 150 175) = Ok (Some hit)
    /\ _extract_hit_data center_field_only no_numeric_strings
         (event_in_play 100 175) = Ok (Some hit')
    /\ spray_angle hit' = (- spray_angle hit)%R
    /\ hit_distance hit' = hit_distance hit.
Proof.
  eexists. eexists. split; [reflexivity|]. split; [reflexivity|].
  apply (mirrored_hits_have_opposite_angles center_field_only
           no_numeric_strings (event_in_play 150 175) (event_in_play 100 175)
           _ _ 150%R 100%R 175%R eq_refl eq_refl).
  - simpl. f_equal. unfold Q2R. simpl. lra.
  - simpl. f_equal. unfold Q2R. simpl. lra.
  - simpl. f_equal. unfold Q2R. simpl. lra.
  - simpl. f_equal. unfold Q2R. simpl. lra.
  - lra.
  - lra.
Defined.

End Stats.

(* ===================================================================== *)
(** ** b_get_mlb_pbp_data.py: cache store and fetch orchestrator *)
(* ===================================================================== *)

Module Fetch.

Import ToDict.

Definition MIN_VALID_FILE_SIZE : Z := 2048.

Definition REQUIRED_SCHEDULE_COLUMNS : gset string :=
  {[ "game_pk"; "date"; "home_team"; "away_team" ]}.

(** A cell of the schedule table as [pd.read_csv] gives it. *)
Inductive cell : Type :=
| CNaN
| CInt (z : Z)
| CFloat (q : Q)
| CStr (s : string).

(** [pd.isna] *)
Definition isna (c : cell) : bool :=
  match c with CNaN => true | _ => false end.

(** The data frame: its column labels and its records, one cell per column
    ([read_csv] pads a short line with NaN). *)
Record frame : Type := {
  columns : list string;
  records : list (list cell)
}.

(** The schedule file MLB_SCHEDULES/MLB_SCHEDULE_<year>.csv. *)
Inductive schedule_file : Type :=
| NoScheduleFile
| UnreadableCsv (e : exn)
| ScheduleCsv (table : frame).

(** A row of [schedule.itertuples(index=False)], with the attributes
    [_process_games] reads. *)
Record row : Type := {
  game_pk : cell;
  date : cell;
  home_team : cell;
  away_team : cell
}.

(** A path of the cache on disk: a file with its content, or an entry whose
    [stat()] raises although [exists()] answers true. *)
Inductive node : Type :=
| File (content : string)
| Unstattable.

(** What opening the cache file and [json.dump] do: the text is written; or
    [open] raises and the path is left as it was; or the dump raises after
    the file was truncated and part of the text written. *)
Inductive save_outcome : Type :=
| Saved (text : string)
| OpenFails (e : exn)
| DumpFails (e : exn) (part : string).

(** What the run does not control: the remote service, the serializer with
    the disk under it, and directory creation. *)
Record environment : Type := {
  get_game_play_by_play : Z -> result pyobj;
  save : string -> pyobj -> save_outcome;
  mkdir : string -> result unit
}.

(** The stages of the loop body at which an exception can be raised. *)
Inductive stage : Type :=
| ParseGameId
| ParseDate
| MakeSeasonDir
| FetchGame
| SaveGame
| Sleep.

(** How the body of the loop ends for one game: [continue] after a valid
    cache, the end of the body after a fetch, or the [except] branch. *)
Inductive outcome : Type :=
| Skipped
| Cached
| Failed (at_stage : stage) (e : exn).

(** The state of a run of [_process_games]: the disk, the local variables
    [season_dirs], [cached_count] and [skipped_count], and what the run did:
    the warnings logged, the games requested from the remote service and the
    cache files opened for writing. *)
Record state : Type := {
  files : gmap string node;
  season_dirs : gmap Z string;
  cached_count : Z;
  skipped_count : Z;
  warnings : list (string * exn);
  fetched : list Z;
  written : list string
}.

Definition initial (disk : gmap string node) : state :=
  {| files := disk; season_dirs := ∅; cached_count := 0; skipped_count := 0;
     warnings := []; fetched := []; written := [] |}.

Definition set_season_dir (game_year : Z) (season_dir : string) (st : state)
  : state :=
  {| files := files st;
     season_dirs := <[game_year := season_dir]> (season_dirs st);
     cached_count := cached_count st; skipped_count := skipped_count st;
     warnings := warnings st; fetched := fetched st; written := written st |}.

Definition count_skipped (st : state) : state :=
  {| files := files st; season_dirs := season_dirs st;
     cached_count := cached_count st; skipped_count := skipped_count st + 1;
     warnings := warnings st; fetched := fetched st; written := written st |}.

Definition count_cached (st : state) : state :=
  {| files := files st; season_dirs := season_dirs st;
     cached_count := cached_count st + 1; skipped_count := skipped_count st;
     warnings := warnings st; fetched := fetched st; written := written st |}.

Definition note_fetch (game_id : Z) (st : state) : state :=
  {| files := files st; season_dirs := season_dirs st;
     cached_count := cached_count st; skipped_count := skipped_count st;
     warnings := warnings st; fetched := fetched st ++ [game_id];
     written := written st |}.

Definition note_write (game_file : string) (disk : gmap string node)
  (st : state) : state :=
  {| files := disk; season_dirs := season_dirs st;
     cached_count := cached_count st; skipped_count := skipped_count st;
     warnings := warnings st; fetched := fetched st;
     written := written st ++ [game_file] |}.

Definition log_warning (game : string) (e : exn) (st : state) : state :=
  {| files := files st; season_dirs := season_dirs st;
     cached_count := cached_count st; skipped_count := skipped_count st;
     warnings := warnings st ++ [(game, e)]; fetched := fetched st;
     written := written st |}.

(** [_is_valid_cache(cache_file)], lines 212-230. *)
Definition _is_valid_cache (disk : gmap string node) (cache_file : string)
  : bool :=
  match disk !! cache_file with
  | None => false
  | Some (File content) =>
      Z.of_nat (String.length content) >? MIN_VALID_FILE_SIZE
  | Some Unstattable => false
  end.

(** [time.sleep(seconds)] raises on a negative length. *)
Definition sleep (seconds : Q) : result unit :=
  if Qle_bool 0 seconds then Ok tt
  else Raise (ValueError "sleep length must be non-negative").

(** Position of a label among the columns. *)
Fixpoint index_of (label : string) (labels : list string) : option nat :=
  match labels with
  | [] => None
  | l :: rest =>
      if String.eqb l label then Some 0%nat
      else option_map S (index_of label rest)
  end.

Definition has_column (labels : list string) (label : string) : bool :=
  match index_of label labels with Some _ => true | None => false end.

(** The cell of a record under a column. *)
Definition cell_at (labels : list string) (record : list cell)
  (label : string) : cell :=
  match index_of label labels with
  | Some i => nth i record CNaN
  | None => CNaN
  end.

(** [DataFrame.dropna(subset=subset)] of pandas: a [KeyError] that lists the
    labels of [subset] which are not columns; otherwise the records that hold
    no NaN under the columns of [subset]. *)
Definition dropna (subset : list string) (table : frame) : result frame :=
  match List.filter (fun label => negb (has_column (columns table) label)) subset with
  | [] =>
      Ok {| columns := columns table;
            records :=
              List.filter
                (fun record =>
                   forallb (fun label =>
                              negb (isna (cell_at (columns table) record label)))
                     subset)
                (records table) |}
  | absent => Raise (KeyError absent)
  end.

(** [_load_and_validate_schedule(year)], lines 96-136, on the state of the
    schedule file of that year. *)
Definition _load_and_validate_schedule (file : schedule_file) : result frame :=
  match file with
  | NoScheduleFile => Raise (FileNotFoundError "Schedule file not found")
  | UnreadableCsv e => Raise e
  | ScheduleCsv table =>
      let* schedule := dropna [ "game_pk"; "home_id"; "away_id" ] table in
      let missing_columns : gset string :=
        REQUIRED_SCHEDULE_COLUMNS ∖ list_to_set (columns schedule) in
      if decide (missing_columns = ∅) then Ok schedule
      else Raise (MissingColumns missing_columns
                    (list_to_set (columns schedule)))
  end.


(** The columns the validation asks for that the table does not have. *)
Definition missing_required (table : frame) : gset string :=
  REQUIRED_SCHEDULE_COLUMNS ∖ list_to_set (columns table).

Section Orchestrator.

(** [int(cell)], the year of [pd.to_datetime(cell)] and the text of a cell in
    an f-string, as Python and pandas define them. *)
Variable py_int : cell -> result Z.
Variable to_datetime_year : cell -> result Z.
Variable py_format : cell -> string.

Variable env : environment.
Variable cache_dir : string.
Variable force_refresh : bool.
Variable rate_limit_delay : Q.

(** [_fetch_game_pbp(mlb, game_id)], lines 233-253: the error is logged and
    raised again. *)
Definition _fetch_game_pbp (game_id : Z) : result pyobj :=
  match get_game_play_by_play env game_id with
  | Ok pbp => Ok (_to_dict pbp)
  | Raise e => Raise e
  end.

(** [_save_game_pbp(game_data, output_file)], lines 256-273: the error is
    logged and raised again. *)
Definition _save_game_pbp (game_data : pyobj) (output_file : string)
  (disk : gmap string node) : gmap string node * result unit :=
  match save env output_file game_data with
  | Saved text => (<[output_file := File text]> disk, Ok tt)
  | OpenFails e => (disk, Raise e)
  | DumpFails e part => (<[output_file := File part]> disk, Raise e)
  end.

(** "Get or create season directory", lines 175-181. *)
Definition season_dir_for (st : state) (game_year : Z) : state * result string :=
  match season_dirs st !! game_year with
  | None =>
      let season_dir := cache_dir +:+ "/" +:+ pretty game_year in
      match mkdir env season_dir with
      | Raise e => (st, Raise e)
      | Ok _ => (set_season_dir game_year season_dir st, Ok season_dir)
      end
  | Some season_dir => (st, Ok season_dir)
  end.

Definition game_file_name (game_id : Z) (home away : cell) : string :=
  "GAMEPK_" +:+ pretty game_id +:+ "_" +:+ py_format home
    +:+ "_VS_" +:+ py_format away +:+ ".json".

(** The body of the [try] in [_process_games], lines 170-203. *)
Definition game_body (st : state) (r : row) : state * outcome :=
  match py_int (game_pk r) with
  | Raise e => (st, Failed ParseGameId e)
  | Ok game_id =>
      match to_datetime_year (date r) with
      | Raise e => (st, Failed ParseDate e)
      | Ok game_year =>
          match season_dir_for st game_year with
          | (st1, Raise e) => (st1, Failed MakeSeasonDir e)
          | (st1, Ok season_dir) =>
              let game_file :=
                season_dir +:+ "/"
                  +:+ game_file_name game_id (home_team r) (away_team r) in
              if negb force_refresh && _is_valid_cache (files st1) game_file
              then (count_skipped st1, Skipped)
              else
                let st2 := note_fetch game_id st1 in
                match _fetch_game_pbp game_id with
                | Raise e => (st2, Failed FetchGame e)
                | Ok game_data =>
                    match _save_game_pbp game_data game_file (files st2) with
                    | (disk, Raise e) =>
                        (note_write game_file disk st2, Failed SaveGame e)
                    | (disk, Ok _) =>
                        let st3 := count_cached (note_write game_file disk st2) in
                        match sleep rate_limit_delay with
                        | Raise e => (st3, Failed Sleep e)
                        | Ok _ => (st3, Cached)
                        end
                    end
                end
          end
      end
  end.

(** One turn of the loop: the body, and the [except Exception] branch that
    logs a warning and continues. *)
Definition process_row (st : state) (r : row) : state :=
  match game_body st r with
  | (st', Failed _ e) => log_warning (py_format (game_pk r)) e st'
  | (st', _) => st'
  end.

(** The loop of [_process_games] from a given state. *)
Definition process_rows (schedule : list row) (st : state) : state :=
  fold_left process_row schedule st.

(** [_process_games(schedule, mlb, cache_dir, force_refresh,
    rate_limit_delay)], lines 139-209, run on the disk [disk]: the final
    state, whose [cached_count] and [skipped_count] are the pair returned. *)
Definition _process_games (schedule : list row) (disk : gmap string node)
  : state :=
  process_rows schedule (initial disk).


(** *** What a run leaves on disk *)

Definition season_path (game_year : Z) : string :=
  cache_dir +:+ "/" +:+ pretty game_year.

(** The cache file of a game. *)
Definition cache_path (game_id game_year : Z) (r : row) : string :=
  season_path game_year +:+ "/"
    +:+ game_file_name game_id (home_team r) (away_team r).

(** Every entry of [season_dirs] is the directory of its year, and that
    directory could be made. *)
Definition memo_ok (st : state) : Prop :=
  forall game_year season_dir,
    season_dirs st !! game_year = Some season_dir ->
    season_dir = season_path game_year /\ mkdir env season_dir = Ok tt.

(** The number of games counted so far, as cached or as skipped. *)
Definition counted (st : state) : Z := cached_count st + skipped_count st.

(** The game of row [r] is settled on [disk]: its identifier and date can be
    read, its season directory can be made, and its cache file is valid. *)
Definition settled (disk : gmap string node) (r : row) : Prop :=
  exists game_id game_year,
    py_int (game_pk r) = Ok game_id
    /\ to_datetime_year (date r) = Ok game_year
    /\ mkdir env (season_path game_year) = Ok tt
    /\ _is_valid_cache disk (cache_path game_id game_year r) = true.

(** Every artifact the serializer writes is larger than the threshold. *)
Definition large_artifacts : Prop :=
  forall path doc text,
    save env path doc = Saved text ->
    MIN_VALID_FILE_SIZE < Z.of_nat (String.length text).

(** *** Concrete schedules, services and disks *)

(** Text of a given length. *)
Fixpoint filler (n : nat) : string :=
  match n with
  | O => ""
  | S k => String "x" (filler k)
  end.

(** A schedule table without the game identifier and the date. *)
Definition schedule_without_game_pk_and_date : frame :=
  {| columns := [ "home_id"; "home_team"; "away_id"; "away_team" ];
     records := [ [ CInt 147; CStr "NYY"; CInt 111; CStr "BOS" ] ] |}.

(** Readings of the cells to run the loop with: an integer cell is its
    value, a date text of 2024 has that year, and a cell prints as its text. *)
Definition int_of_cell (c : cell) : result Z :=
  match c with
  | CInt z => Ok z
  | _ => Raise (ValueError "invalid literal for int()")
  end.

Definition year_of_cell (c : cell) : result Z :=
  match c with
  | CStr s =>
      if String.prefix "2024-" s then Ok 2024
      else Raise (ValueError "Unknown datetime string format")
  | _ => Raise TypeError
  end.

Definition text_of_cell (c : cell) : string :=
  match c with
  | CStr s => s
  | CInt z => pretty z
  | CFloat _ => "float"
  | CNaN => "nan"
  end.

Definition game (id : Z) (day : string) : row :=
  {| game_pk := CInt id; date := CStr day;
     home_team := CStr "NYY"; away_team := CStr "BOS" |}.

Definition play_by_play : pyobj :=
  PInst [ ("allplays", PList []); ("_mlb", PNone) ].

(** The service answers every game, every write succeeds with a text of 4096
    bytes. *)
Definition steady_env : environment :=
  {| get_game_play_by_play := fun _ => Ok play_by_play;
     save := fun _ _ => Saved (filler 4096);
     mkdir := fun _ => Ok tt |}.

(** The service fails for game 745445. *)
Definition flaky_env : environment :=
  {| get_game_play_by_play :=
       fun id => if Z.eqb id 745445 then Raise RemoteError else Ok play_by_play;
     save := fun _ _ => Saved (filler 4096);
     mkdir := fun _ => Ok tt |}.


Definition two_games : list row :=
  [ game 745444 "2024-03-28"; game 745445 "2024-03-29" ].

Definition one_game_table : frame :=
  {| columns := [ "date"; "game_pk"; "home_id"; "home_team"; "away_id";
                  "away_team" ];
     records := [ [ CStr "2024-03-28"; CInt 745444; CInt 147; CStr "NYY";
                    CInt 111; CStr "BOS" ] ] |}.

(** *** The loop, one game at a time *)

Lemma process_rows_cons (r : row) (rest : list row) (st : state) :
  process_rows (r :: rest) st = process_rows rest (process_row st r).
Proof. reflexivity. Qed.

Lemma season_dir_for_frame st game_year st1 res :
  season_dir_for st game_year = (st1, res) ->
  files st1 = files st
  /\ cached_count st1 = cached_count st
  /\ skipped_count st1 = skipped_count st
  /\ warnings st1 = warnings st
  /\ fetched st1 = fetched st
  /\ written st1 = written st.
Proof.
  unfold season_dir_for. intros H.
  destruct (season_dirs st !! game_year).
  - injection H as <- <-. repeat split.
  - destruct (mkdir env _); injection H as <- <-; repeat split.
Qed.


(** An exception raised before the sleep finds both counters, and the log,
    as they were when the game was taken up. *)
Lemma game_body_failed_counts st r st1 at_stage e :
  game_body st r = (st1, Failed at_stage e) ->
  at_stage <> Sleep ->
  cached_count st1 = cached_count st
  /\ skipped_count st1 = skipped_count st
  /\ warnings st1 = warnings st.
Proof.
  unfold game_body. intros H Hs.
  destruct (py_int (game_pk r)) as [game_id|e1]; [|injection H as <- _ _; auto].
  destruct (to_datetime_year (date r)) as [game_year|e1];
    [|injection H as <- _ _; auto].
  destruct (season_dir_for st game_year) as [st0 [season_dir|e1]] eqn:Ed;
    apply season_dir_for_frame in Ed as (Hf & Hc & Hk & Hw & _ & _);
    [|injection H as <- _ _; auto].
  destruct (negb force_refresh && _is_valid_cache _ _); [discriminate H|].
  destruct (_fetch_game_pbp game_id) as [game_data|e1];
    [|injection H as <- _ _; auto].
  destruct (_save_game_pbp _ _ _) as [disk [[]|e1]];
    [|injection H as <- _ _; auto].
  destruct (sleep rate_limit_delay); [discriminate H|].
  injection H as _ <- _. congruence.
Qed.

Lemma process_row_failed st r st1 at_stage e :
  game_body st r = (st1, Failed at_stage e) ->
  process_row st r = log_warning (py_format (game_pk r)) e st1.
Proof. unfold process_row. intros ->. reflexivity. Qed.

(** C8.  A game whose identifier cannot be read, whose date cannot be parsed,
    or whose request to the remote service fails, ends in the [except]
    branch; and whenever a game ends there for an exception raised before the
    sleep, a warning is logged with that exception, both counters are what
    they were before the game, and the loop goes on with the next game. *)
Theorem failed_game_is_logged_and_run_continues :
  forall (st : state) (r : row) (rest : list row),
    (forall e, py_int (game_pk r) = Raise e ->
       game_body st r = (st, Failed ParseGameId e))
    /\ (forall game_id e,
          py_int (game_pk r) = Ok game_id ->
          to_datetime_year (date r) = Raise e ->
          game_body st r = (st, Failed ParseDate e))
    /\ (forall game_id game_year st1 season_dir e,
          py_int (game_pk r) = Ok game_id ->
          to_datetime_year (date r) = Ok game_year ->
          season_dir_for st game_year = (st1, Ok season_dir) ->
          negb force_refresh
            && _is_valid_cache (files st1)
                 (season_dir +:+ "/"
                    +:+ game_file_name game_id (home_team r) (away_team r))
          = false ->
          get_game_play_by_play env game_id = Raise e ->
          game_body st r = (note_fetch game_id st1, Failed FetchGame e))
    /\ (forall st1 at_stage e,
          game_body st r = (st1, Failed at_stage e) ->
          at_stage <> Sleep ->
          process_rows (r :: rest) st
          = process_rows rest (log_warning (py_format (game_pk r)) e st1)
          /\ cached_count (log_warning (py_format (game_pk r)) e st1)
             = cached_count st
          /\ skipped_count (log_warning (py_format (game_pk r)) e st1)
             = skipped_count st
          /\ warnings (log_warning (py_format (game_pk r)) e st1)
             = warnings st ++ [ (py_format (game_pk r), e) ]).
Proof.
  intros st r rest. repeat split.
  - intros e H. unfold game_body. rewrite H. reflexivity.
  - intros game_id e H1 H2. unfold game_body. rewrite H1, H2. reflexivity.
  - intros game_id game_year st1 season_dir e H1 H2 H3 H4 H5.
    unfold game_body, _fetch_game_pbp. rewrite H1, H2, H3, H4, H5. reflexivity.
  - rewrite process_rows_cons. erewrite process_row_failed; eauto.
  - apply game_body_failed_counts in H as (Hc & _ & _); auto.
  - apply game_body_failed_counts in H as (_ & Hk & _); auto.
  - apply game_body_failed_counts in H as (_ & _ & Hw); auto.
    simpl. rewrite Hw. reflexivity.
Qed.


(** *** Two runs over the same schedule *)

Lemma valid_after_insert disk path text other :
  MIN_VALID_FILE_SIZE < Z.of_nat (String.length text) ->
  _is_valid_cache disk other = true ->
  _is_valid_cache (<[path := File text]> disk) other = true.
Proof.
  intros Hl Hv. unfold _is_valid_cache.
  destruct (decide (path = other)) as [->|Hne].
  - rewrite lookup_insert_eq. apply Z.gtb_lt. exact Hl.
  - rewrite lookup_insert_ne by exact Hne. exact Hv.
Qed.

Lemma season_dir_for_ok st game_year st1 season_dir :
  memo_ok st ->
  season_dir_for st game_year = (st1, Ok season_dir) ->
  memo_ok st1
  /\ season_dir = season_path game_year
  /\ mkdir env (season_path game_year) = Ok tt.
Proof.
  unfold season_dir_for. intros Hm H.
  destruct (season_dirs st !! game_year) as [d|] eqn:Ed.
  - injection H as <- <-. destruct (Hm _ _ Ed) as [-> Hk]. auto.
  - fold (season_path game_year) in H.
    destruct (mkdir env (season_path game_year)) as [[]|e] eqn:Ek;
      [|discriminate H].
    injection H as <- <-. split; [|split; auto].
    unfold memo_ok. intros y d. simpl. intros Hy.
    destruct (decide (game_year = y)) as [->|Hne].
    + rewrite lookup_insert_eq in Hy. injection Hy as <-. auto.
    + rewrite lookup_insert_ne in Hy by exact Hne. apply Hm, Hy.
Qed.

Lemma season_dir_for_raise st game_year st1 e :
  season_dir_for st game_year = (st1, Raise e) -> st1 = st.
Proof.
  unfold season_dir_for. intros H.
  destruct (season_dirs st !! game_year); [discriminate H|].
  destruct (mkdir env _); [discriminate H|]. injection H as <- _. reflexivity.
Qed.

Lemma save_game_pbp_ok game_data output_file disk disk' u :
  _save_game_pbp game_data output_file disk = (disk', Ok u) ->
  exists text,
    save env output_file game_data = Saved text
    /\ disk' = <[output_file := File text]> disk.
Proof.
  unfold _save_game_pbp. intros H.
  destruct (save env output_file game_data) as [text|e|e part];
    try discriminate H.
  injection H as <- _. eauto.
Qed.

Lemma settled_after_insert disk path text r0 :
  MIN_VALID_FILE_SIZE < Z.of_nat (String.length text) ->
  settled disk r0 -> settled (<[path := File text]> disk) r0.
Proof.
  intros Hl (game_id & game_year & H1 & H2 & H3 & H4).
  exists game_id, game_year. repeat split; auto.
  apply valid_after_insert; auto.
Qed.

Lemma game_body_counted st r st1 o :
  large_artifacts ->
  memo_ok st ->
  game_body st r = (st1, o) ->
  memo_ok st1
  /\ counted st1 <= counted st + 1
  /\ (counted st1 = counted st + 1 ->
      settled (files st1) r
      /\ forall r0, settled (files st) r0 -> settled (files st1) r0).
Proof.
  unfold game_body, counted. intros Hlarge Hm H.
  destruct (py_int (game_pk r)) as [game_id|e1] eqn:Ei.
  2:{ injection H as <- _. split; [exact Hm|]. split; [lia | intros ?; lia]. }
  destruct (to_datetime_year (date r)) as [game_year|e1] eqn:Ey.
  2:{ injection H as <- _. split; [exact Hm|]. split; [lia | intros ?; lia]. }
  destruct (season_dir_for st game_year) as [st0 [season_dir|e1]] eqn:Ed.
  2:{ apply season_dir_for_raise in Ed. subst st0.
      injection H as <- _. split; [exact Hm|]. split; [lia | intros ?; lia]. }
  pose proof (season_dir_for_frame _ _ _ _ Ed) as (Hf & Hc & Hk & _).
  apply (season_dir_for_ok _ _ _ _ Hm) in Ed as (Hm0 & -> & Hmk).
  fold (cache_path game_id game_year r) in H.
  destruct (negb force_refresh
              && _is_valid_cache (files st0) (cache_path game_id game_year r))
    eqn:Ev.
  { injection H as <- _. split; [exact Hm0|]. simpl.
    split; [lia|]. intros _. split.
    - exists game_id, game_year. apply andb_prop in Ev as [_ Ev]. auto.
    - rewrite Hf. auto. }
  destruct (_fetch_game_pbp game_id) as [game_data|e1].
  2:{ injection H as <- _. split; [exact Hm0|]. simpl.
      split; [lia | intros ?; lia]. }
  destruct (_save_game_pbp game_data (cache_path game_id game_year r)
              (files (note_fetch game_id st0))) as [disk [u|e1]] eqn:Es.
  2:{ injection H as <- _. split; [exact Hm0|]. simpl.
      split; [lia | intros ?; lia]. }
  apply save_game_pbp_ok in Es as (text & Hs & ->). simpl in H.
  apply Hlarge in Hs.
  assert (Hst1 : st1 = count_cached
                         (note_write (cache_path game_id game_year r)
                            (<[cache_path game_id game_year r := File text]>
                               (files st0))
                            (note_fetch game_id st0))).
  { destruct (sleep rate_limit_delay); injection H as <- _; reflexivity. }
  subst st1. split; [exact Hm0|]. simpl.
  split; [lia|]. intros _. split.
  - exists game_id, game_year. repeat split; auto.
    unfold _is_valid_cache. rewrite lookup_insert_eq.
    apply Z.gtb_lt. exact Hs.
  - intros r0 H0. rewrite Hf. apply settled_after_insert; auto.
Qed.

Lemma process_row_counted st r :
  large_artifacts ->
  memo_ok st ->
  memo_ok (process_row st r)
  /\ counted (process_row st r) <= counted st + 1
  /\ (counted (process_row st r) = counted st + 1 ->
      settled (files (process_row st r)) r
      /\ forall r0, settled (files st) r0 ->
                    settled (files (process_row st r)) r0).
Proof.
  intros Hlarge Hm. unfold process_row.
  destruct (game_body st r) as [st1 o] eqn:Eb.
  destruct (game_body_counted _ _ _ _ Hlarge Hm Eb) as (Hm1 & Hle & Hset).
  destruct o; (split; [exact Hm1|]; split; [exact Hle | exact Hset]).
Qed.

Lemma process_rows_counted schedule :
  large_artifacts ->
  forall st,
    memo_ok st ->
    memo_ok (process_rows schedule st)
    /\ counted (process_rows schedule st)
       <= counted st + Z.of_nat (length schedule)
    /\ (counted (process_rows schedule st)
        = counted st + Z.of_nat (length schedule) ->
        (forall r, In r schedule -> settled (files (process_rows schedule st)) r)
        /\ forall r0, settled (files st) r0 ->
                      settled (files (process_rows schedule st)) r0).
Proof.
  intros Hlarge. induction schedule as [|r rest IH]; intros st Hm.
  - simpl. split; [exact Hm|]. split; [lia|]. intros _.
    split; [intros r [] | auto].
  - rewrite process_rows_cons.
    destruct (process_row_counted st r Hlarge Hm) as (Hm1 & Hle1 & Hset1).
    destruct (IH _ Hm1) as (Hm2 & Hle2 & Hset2).
    split; [exact Hm2|]. split; [simpl length; lia|].
    intros Heq. simpl length in Heq.
    assert (H1 : counted (process_row st r) = counted st + 1) by lia.
    assert (H2 : counted (process_rows rest (process_row st r))
                 = counted (process_row st r) + Z.of_nat (length rest)) by lia.
    destruct (Hset1 H1) as (Hr & Hkeep1).
    destruct (Hset2 H2) as (Hrest & Hkeep2).
    split.
    + intros r' [<- | Hin]; auto.
    + intros r0 H0. auto.
Qed.

Lemma game_body_settled st r :
  force_refresh = false ->
  (forall y d, season_dirs st !! y = Some d -> d = season_path y) ->
  settled (files st) r ->
  exists st1,
    game_body st r = (count_skipped st1, Skipped)
    /\ (forall y d, season_dirs st1 !! y = Some d -> d = season_path y)
    /\ files st1 = files st
    /\ cached_count st1 = cached_count st
    /\ skipped_count st1 = skipped_count st
    /\ warnings st1 = warnings st
    /\ fetched st1 = fetched st
    /\ written st1 = written st.
Proof.
  intros Hforce Hm (game_id & game_year & Hi & Hy & Hk & Hv).
  unfold game_body. rewrite Hi, Hy, Hforce.
  unfold season_dir_for. fold (season_path game_year).
  destruct (season_dirs st !! game_year) as [d|] eqn:Ed.
  - apply Hm in Ed as ->. fold (cache_path game_id game_year r).
    rewrite Hv. simpl. exists st.
    split; [reflexivity|]. split; [exact Hm|]. repeat split.
  - rewrite Hk. fold (cache_path game_id game_year r). simpl.
    rewrite Hv. eexists. split; [reflexivity|]. simpl.
    split; [|repeat split].
    intros y d Hyd.
    destruct (decide (game_year = y)) as [->|Hne].
    + rewrite lookup_insert_eq in Hyd. congruence.
    + rewrite lookup_insert_ne in Hyd by exact Hne. apply Hm, Hyd.
Qed.

Lemma process_rows_all_skipped schedule :
  force_refresh = false ->
  forall st,
    (forall y d, season_dirs st !! y = Some d -> d = season_path y) ->
    (forall r, In r schedule -> settled (files st) r) ->
    files (process_rows schedule st) = files st
    /\ cached_count (process_rows schedule st) = cached_count st
    /\ skipped_count (process_rows schedule st)
       = skipped_count st + Z.of_nat (length schedule)
    /\ warnings (process_rows schedule st) = warnings st
    /\ fetched (process_rows schedule st) = fetched st
    /\ written (process_rows schedule st) = written st.
Proof.
  intros Hforce. induction schedule as [|r rest IH]; intros st Hm Hall.
  - simpl. repeat split; auto; lia.
  - rewrite process_rows_cons.
    destruct (game_body_settled st r Hforce Hm (Hall r (or_introl eq_refl)))
      as (st1 & Hb & Hm1 & Hf & Hc & Hk & Hw & Hfe & Hwr).
    unfold process_row. rewrite Hb.
    destruct (IH (count_skipped st1)) as (If & Ic & Ik & Iw & Ife & Iwr).
    + exact Hm1.
    + intros r' Hin. simpl. rewrite Hf. apply Hall. right. exact Hin.
    + simpl in *. rewrite If, Ic, Ik, Iw, Ife, Iwr.
      repeat split; try congruence. simpl length. lia.
Qed.

(** *** Accounts of a run *)

(** What one game adds to each counter, by the way its body ended. *)
Definition skip_of (o : outcome) : Z :=
  match o with Skipped => 1 | _ => 0 end.

Definition cache_of (o : outcome) : Z :=
  match o with Cached | Failed Sleep _ => 1 | _ => 0 end.

Definition warning_of (o : outcome) : Z :=
  match o with Failed _ _ => 1 | _ => 0 end.

(** Games counted as cached, counted as skipped, or warned about. *)
Definition accounted (st : state) : Z :=
  cached_count st + skipped_count st + Z.of_nat (length (warnings st)).

(** [p] is the cache file of the game of row [r]. *)
Definition is_cache_path_of (r : row) (p : string) : Prop :=
  exists game_id game_year,
    py_int (game_pk r) = Ok game_id
    /\ to_datetime_year (date r) = Ok game_year
    /\ p = cache_path game_id game_year r.

Lemma game_body_counts st r st1 o :
  game_body st r = (st1, o) ->
  warnings st1 = warnings st
  /\ skipped_count st1 = skipped_count st + skip_of o
  /\ cached_count st1 = cached_count st + cache_of o.
Proof.
  unfold game_body. intros H.
  destruct (py_int (game_pk r)) as [game_id|e1];
    [|injection H as <- <-; simpl; repeat split; lia].
  destruct (to_datetime_year (date r)) as [game_year|e1];
    [|injection H as <- <-; simpl; repeat split; lia].
  destruct (season_dir_for st game_year) as [st0 [season_dir|e1]] eqn:Ed;
    apply season_dir_for_frame in Ed as (Hf & Hc & Hk & Hw & _ & _);
    [|injection H as <- <-; simpl; repeat split; auto; lia].
  destruct (negb force_refresh && _is_valid_cache _ _);
    [injection H as <- <-; simpl; repeat split; auto; lia|].
  destruct (_fetch_game_pbp game_id) as [game_data|e1];
    [|injection H as <- <-; simpl; repeat split; auto; lia].
  destruct (_save_game_pbp _ _ _) as [disk [[]|e1]];
    [|injection H as <- <-; simpl; repeat split; auto; lia].
  destruct (sleep rate_limit_delay); injection H as <- <-; simpl;
    repeat split; auto; lia.
Qed.

Lemma sleep_never_raises_on_nonnegative e :
  Qle_bool 0 rate_limit_delay = true -> sleep rate_limit_delay <> Raise e.
Proof. unfold sleep. intros ->. discriminate. Qed.

Lemma game_body_no_sleep_failure st r st1 e :
  Qle_bool 0 rate_limit_delay = true ->
  game_body st r <> (st1, Failed Sleep e).
Proof.
  intros Hd H. unfold game_body in H.
  destruct (py_int (game_pk r)); [|discriminate H].
  destruct (to_datetime_year (date r)); [|discriminate H].
  destruct (season_dir_for st a0) as [st0 [season_dir|e1]]; [|discriminate H].
  destruct (negb force_refresh && _is_valid_cache _ _); [discriminate H|].
  destruct (_fetch_game_pbp a); [|discriminate H].
  destruct (_save_game_pbp _ _ _) as [disk [[]|e1]]; [|discriminate H].
  unfold sleep in H. rewrite Hd in H. discriminate H.
Qed.

Lemma process_row_counts st r :
  cached_count st <= cached_count (process_row st r)
  /\ skipped_count st <= skipped_count (process_row st r)
  /\ cached_count (process_row st r) + skipped_count (process_row st r)
     <= cached_count st + skipped_count st + 1
  /\ (Qle_bool 0 rate_limit_delay = true ->
      accounted (process_row st r) = accounted st + 1).
Proof.
  unfold process_row, accounted.
  destruct (game_body st r) as [st1 o] eqn:Eb.
  pose proof (game_body_counts _ _ _ _ Eb) as (Hw & Hk & Hc).
  destruct o as [ | | at_stage e ]; simpl in *.
  - rewrite Hw. repeat split; lia.
  - rewrite Hw. repeat split; lia.
  - rewrite length_app, Hw. simpl.
    destruct at_stage; simpl in *; repeat split; try lia.
    intros Hd. destruct (game_body_no_sleep_failure _ _ _ _ Hd Eb).
Qed.

Lemma process_rows_counts schedule :
  forall st,
    cached_count st <= cached_count (process_rows schedule st)
    /\ skipped_count st <= skipped_count (process_rows schedule st)
    /\ cached_count (process_rows schedule st)
       + skipped_count (process_rows schedule st)
       <= cached_count st + skipped_count st + Z.of_nat (length schedule)
    /\ (Qle_bool 0 rate_limit_delay = true ->
        accounted (process_rows schedule st)
        = accounted st + Z.of_nat (length schedule)).
Proof.
  induction schedule as [|r rest IH]; intros st.
  - simpl. repeat split; lia.
  - rewrite process_rows_cons.
    destruct (process_row_counts st r) as (H1 & H2 & H3 & H4).
    destruct (IH (process_row st r)) as (I1 & I2 & I3 & I4).
    simpl length. repeat split; try lia.
    intros Hd. specialize (H4 Hd). specialize (I4 Hd). lia.
Qed.

(** X10.  In a run of [_process_games] neither counter is ever negative and
    no game is counted twice: the two counters together are at most the
    number of games.  With a delay that is not negative every game is
    accounted for exactly once: it is counted as cached, counted as skipped,
    or a warning is logged for it. *)
Theorem every_game_is_accounted_once :
  forall (schedule : list row) (disk : gmap string node),
    0 <= cached_count (_process_games schedule disk)
    /\ 0 <= skipped_count (_process_games schedule disk)
    /\ cached_count (_process_games schedule disk)
       + skipped_count (_process_games schedule disk)
       <= Z.of_nat (length schedule)
    /\ (Qle_bool 0 rate_limit_delay = true ->
        cached_count (_process_games schedule disk)
        + skipped_count (_process_games schedule disk)
        + Z.of_nat (length (warnings (_process_games schedule disk)))
        = Z.of_nat (length schedule)).
Proof.
  intros schedule disk. unfold _process_games.
  destruct (process_rows_counts schedule (initial disk)) as (H1 & H2 & H3 & H4).
  unfold accounted in H4. simpl in *. repeat split; try lia.
  intros Hd. specialize (H4 Hd). lia.
Qed.

Lemma game_body_forced st r st1 o :
  force_refresh = true -> game_body st r = (st1, o) -> o <> Skipped.
Proof.
  intros Hf H. unfold game_body in H. rewrite Hf in H. simpl in H.
  destruct (py_int (game_pk r)); [|injection H as _ <-; discriminate].
  destruct (to_datetime_year (date r)); [|injection H as _ <-; discriminate].
  destruct (season_dir_for st a0) as [st0 [season_dir|e1]];
    [|injection H as _ <-; discriminate].
  destruct (_fetch_game_pbp a); [|injection H as _ <-; discriminate].
  destruct (_save_game_pbp _ _ _) as [disk [[]|e1]];
    [|injection H as _ <-; discriminate].
  destruct (sleep rate_limit_delay); injection H as _ <-; discriminate.
Qed.

(** X11.  With [force_refresh=True] no game is ever counted as skipped,
    whatever the cache holds. *)
Theorem forced_refresh_never_skips :
  force_refresh = true ->
  forall (schedule : list row) (st : state),
    skipped_count (process_rows schedule st) = skipped_count st.
Proof.
  intros Hf. induction schedule as [|r rest IH]; intros st; [reflexivity|].
  rewrite process_rows_cons, IH. unfold process_row.
  destruct (game_body st r) as [st1 o] eqn:Eb.
  pose proof (game_body_counts _ _ _ _ Eb) as (_ & Hk & _).
  pose proof (game_body_forced _ _ _ _ Hf Eb) as Hne.
  destruct o; simpl in *; [congruence | lia | lia].
Qed.

(** *** What a run requests and what it writes *)

(** What the games of [schedule] added to the run between [st] and [st']:
    the requests [nf] and the writes [nw]. *)
Definition trace_between (schedule : list row) (st st' : state)
  (nf : list Z) (nw : list string) : Prop :=
  fetched st' = fetched st ++ nf
  /\ written st' = written st ++ nw
  /\ (length nw <= length nf)%nat
  /\ (Z.of_nat (length nf)
      <= Z.of_nat (length schedule) - (skipped_count st' - skipped_count st))
  /\ cached_count st' - cached_count st <= Z.of_nat (length nw)
  /\ (forall p, ~ In p nw -> files st' !! p = files st !! p)
  /\ (forall p, is_Some (files st !! p) -> is_Some (files st' !! p))
  /\ Forall (fun p => exists r, In r schedule /\ is_cache_path_of r p) nw.

Lemma save_game_pbp_disk game_data output_file disk disk' res :
  _save_game_pbp game_data output_file disk = (disk', res) ->
  (forall p, p <> output_file -> disk' !! p = disk !! p)
  /\ (forall p, is_Some (disk !! p) -> is_Some (disk' !! p)).
Proof.
  unfold _save_game_pbp. intros H.
  destruct (save env output_file game_data) as [text|e|e part];
    injection H as <- _; split; auto.
  - intros p Hp. rewrite lookup_insert_ne by congruence. reflexivity.
  - intros p Hs. destruct (decide (output_file = p)) as [->|Hne].
    + rewrite lookup_insert_eq. eauto.
    + rewrite lookup_insert_ne by exact Hne. exact Hs.
  - intros p Hp. rewrite lookup_insert_ne by congruence. reflexivity.
  - intros p Hs. destruct (decide (output_file = p)) as [->|Hne].
    + rewrite lookup_insert_eq. eauto.
    + rewrite lookup_insert_ne by exact Hne. exact Hs.
Qed.

Lemma game_body_trace st r st1 o :
  memo_ok st ->
  game_body st r = (st1, o) ->
  memo_ok st1 /\ exists nf nw, trace_between [r] st st1 nf nw.
Proof.
  unfold game_body, trace_between. intros Hm H.
  assert (Hnone : forall st', memo_ok st' ->
            files st' = files st -> fetched st' = fetched st ->
            written st' = written st ->
            skipped_count st' = skipped_count st ->
            cached_count st' = cached_count st ->
            memo_ok st' /\ exists nf nw,
              fetched st' = fetched st ++ nf
              /\ written st' = written st ++ nw
              /\ (length nw <= length nf)%nat
              /\ (Z.of_nat (length nf)
                  <= Z.of_nat (length [r])
                     - (skipped_count st' - skipped_count st))
              /\ cached_count st' - cached_count st <= Z.of_nat (length nw)
              /\ (forall p, ~ In p nw -> files st' !! p = files st !! p)
              /\ (forall p, is_Some (files st !! p) -> is_Some (files st' !! p))
              /\ Forall (fun p => exists r0, In r0 [r] /\ is_cache_path_of r0 p)
                   nw).
  { intros st' Hm' Hf Hfe Hwr Hk Hc. split; [exact Hm'|].
    exists [], []. rewrite !app_nil_r, Hf, Hk, Hc. simpl.
    repeat split; auto; try lia. }
  destruct (py_int (game_pk r)) as [game_id|e1] eqn:Ei.
  2:{ injection H as <- _. apply Hnone; auto. }
  destruct (to_datetime_year (date r)) as [game_year|e1] eqn:Ey.
  2:{ injection H as <- _. apply Hnone; auto. }
  destruct (season_dir_for st game_year) as [st0 [season_dir|e1]] eqn:Ed.
  2:{ apply season_dir_for_raise in Ed. subst st0.
      injection H as <- _. apply Hnone; auto. }
  pose proof (season_dir_for_frame _ _ _ _ Ed) as (Hf & Hc & Hk & _ & Hfe & Hwr).
  apply (season_dir_for_ok _ _ _ _ Hm) in Ed as (Hm0 & -> & Hmk).
  fold (cache_path game_id game_year r) in H.
  destruct (negb force_refresh
              && _is_valid_cache (files st0) (cache_path game_id game_year r)).
  { injection H as <- _. split; [exact Hm0|].
    exists [], []. simpl. rewrite !app_nil_r, Hf, Hk, Hc.
    repeat split; auto; try lia. }
  assert (Hpath : exists r0, In r0 [r]
                    /\ is_cache_path_of r0 (cache_path game_id game_year r)).
  { exists r. split; [left; reflexivity|]. exists game_id, game_year. auto. }
  destruct (_fetch_game_pbp game_id) as [game_data|e1].
  2:{ injection H as <- _. split; [exact Hm0|].
      exists [game_id], []. simpl. rewrite app_nil_r, Hf, Hk, Hc, Hfe.
      repeat split; auto; try lia. }
  destruct (_save_game_pbp game_data (cache_path game_id game_year r)
              (files (note_fetch game_id st0))) as [disk res] eqn:Es.
  apply save_game_pbp_disk in Es as (Hother & Hkeep). simpl in Hother, Hkeep.
  assert (Hwrite : forall st3,
            season_dirs st3 = season_dirs st0 ->
            files st3 = disk ->
            fetched st3 = fetched st0 ++ [game_id] ->
            written st3 = written st0 ++ [cache_path game_id game_year r] ->
            skipped_count st3 = skipped_count st0 ->
            cached_count st3 <= cached_count st0 + 1 ->
            memo_ok st3 /\ exists nf nw,
              fetched st3 = fetched st ++ nf
              /\ written st3 = written st ++ nw
              /\ (length nw <= length nf)%nat
              /\ (Z.of_nat (length nf)
                  <= Z.of_nat (length [r])
                     - (skipped_count st3 - skipped_count st))
              /\ cached_count st3 - cached_count st <= Z.of_nat (length nw)
              /\ (forall p, ~ In p nw -> files st3 !! p = files st !! p)
              /\ (forall p, is_Some (files st !! p) -> is_Some (files st3 !! p))
              /\ Forall (fun p => exists r0, In r0 [r] /\ is_cache_path_of r0 p)
                   nw).
  { intros st3 Hs3 Hf3 Hfe3 Hwr3 Hk3 Hc3. split.
    - intros y d Hy. rewrite Hs3 in Hy. apply Hm0, Hy.
    - exists [game_id], [cache_path game_id game_year r].
      rewrite Hfe3, Hwr3, Hf3, Hk3, Hfe, Hwr, Hk. simpl.
      repeat split; auto; try lia.
      + intros p Hp. rewrite Hother, Hf; [reflexivity|].
        intros ->. apply Hp. left; reflexivity.
      + intros p Hp. apply Hkeep. rewrite Hf. exact Hp. }
  destruct res as [u|e1].
  - destruct (sleep rate_limit_delay); injection H as <- _;
      apply Hwrite; simpl; auto; lia.
  - injection H as <- _. apply Hwrite; simpl; auto; lia.
Qed.

Lemma process_row_trace st r :
  memo_ok st ->
  memo_ok (process_row st r)
  /\ exists nf nw, trace_between [r] st (process_row st r) nf nw.
Proof.
  intros Hm. unfold process_row.
  destruct (game_body st r) as [st1 o] eqn:Eb.
  destruct (game_body_trace _ _ _ _ Hm Eb) as (Hm1 & nf & nw & Ht).
  destruct o; eauto.
Qed.

Lemma trace_between_cons r rest st st1 st2 nf1 nw1 nf2 nw2 :
  trace_between [r] st st1 nf1 nw1 ->
  trace_between rest st1 st2 nf2 nw2 ->
  trace_between (r :: rest) st st2 (nf1 ++ nf2) (nw1 ++ nw2).
Proof.
  unfold trace_between.
  intros (A1 & A2 & A3 & A4 & A5 & A6 & A7 & A8)
         (B1 & B2 & B3 & B4 & B5 & B6 & B7 & B8).
  rewrite B1, A1, B2, A2, !app_assoc, !length_app. simpl length in *.
  repeat split; auto; try lia.
  - intros p Hp. rewrite B6, A6; auto; intros Hin; apply Hp, in_or_app; auto.
  - apply Forall_app. split.
    + eapply Forall_impl; [exact A8|]. simpl.
      intros p (r0 & [<- | []] & Hr). exists r. split; [left; reflexivity | exact Hr].
    + eapply Forall_impl; [exact B8|]. simpl.
      intros p (r0 & Hin & Hr). exists r0. split; [right; exact Hin | exact Hr].
Qed.

Lemma process_rows_trace schedule :
  forall st,
    memo_ok st ->
    exists nf nw, trace_between schedule st (process_rows schedule st) nf nw.
Proof.
  induction schedule as [|r rest IH]; intros st Hm.
  - exists [], []. unfold trace_between. simpl. rewrite !app_nil_r.
    repeat split; auto; try lia.
  - rewrite process_rows_cons.
    destruct (process_row_trace st r Hm) as (Hm1 & nf1 & nw1 & H1).
    destruct (IH _ Hm1) as (nf2 & nw2 & H2).
    exists (nf1 ++ nf2), (nw1 ++ nw2). eapply trace_between_cons; eauto.
Qed.

Lemma memo_ok_initial disk : memo_ok (initial disk).
Proof. intros y d H. simpl in H. rewrite lookup_empty in H. discriminate H. Qed.

(** X12.  In a run of [_process_games] there is no cache write without a
    request to the remote service before it and no game counted as cached
    without a write: the writes are at most as many as the requests, the
    games counted as cached at most as many as the writes, and the requests
    at most as many as the games not counted as skipped. *)
Theorem no_write_without_fetch :
  forall (schedule : list row) (disk : gmap string node),
    (length (written (_process_games schedule disk))
     <= length (fetched (_process_games schedule disk)))%nat
    /\ cached_count (_process_games schedule disk)
       <= Z.of_nat (length (written (_process_games schedule disk)))
    /\ Z.of_nat (length (fetched (_process_games schedule disk)))
       <= Z.of_nat (length schedule)
          - skipped_count (_process_games schedule disk).
Proof.
  intros schedule disk. unfold _process_games.
  destruct (process_rows_trace schedule (initial disk) (memo_ok_initial disk))
    as (nf & nw & H1 & H2 & H3 & H4 & H5 & _).
  simpl in *. rewrite H1, H2. simpl. repeat split; lia.
Qed.



(** X15.  After a successful [_save_game_pbp] the path holds the text that
    was written, and the path is a valid cache entry exactly when that text
    is longer than 2048 bytes; whether the write succeeds or raises, the
    validity of every other path is what it was. *)
Theorem save_then_validity :
  forall (game_data : pyobj) (output_file : string)
         (disk disk' : gmap string node) (res : result unit),
    _save_game_pbp game_data output_file disk = (disk', res) ->
    (forall u, res = Ok u ->
       exists text,
         save env output_file game_data = Saved text
         /\ disk' !! output_file = Some (File text)
         /\ _is_valid_cache disk' output_file
            = (Z.of_nat (String.length text) >? MIN_VALID_FILE_SIZE))
    /\ (forall other,
          other <> output_file ->
          _is_valid_cache disk' other = _is_valid_cache disk other).
Proof.
  intros game_data output_file disk disk' res H. split.
  - intros u ->. apply save_game_pbp_ok in H as (text & Hs & ->).
    exists text. unfold _is_valid_cache. rewrite lookup_insert_eq. auto.
  - intros other Hne. apply save_game_pbp_disk in H as (Hother & _).
    unfold _is_valid_cache. rewrite Hother by exact Hne. reflexivity.
Qed.

End Orchestrator.

(** *** The cache validity check *)




(** *** Validation of the schedule *)

Lemma dropna_columns subset table schedule :
  dropna subset table = Ok schedule -> columns schedule = columns table.
Proof.
  unfold dropna. destruct (List.filter _ subset); [|discriminate].
  intros H. injection H as <-. reflexivity.
Qed.

(** When the three columns that [dropna] reads are there, a schedule that
    lacks a required column is refused with the error that names the missing
    set. *)
Lemma missing_columns_are_named (table : frame) :
  has_column (columns table) "game_pk" = true ->
  has_column (columns table) "home_id" = true ->
  has_column (columns table) "away_id" = true ->
  missing_required table <> ∅ ->
  _load_and_validate_schedule (ScheduleCsv table)
  = Raise (MissingColumns (missing_required table)
             (list_to_set (columns table))).
Proof.
  intros Hg Hh Ha Hm. unfold _load_and_validate_schedule, dropna.
  simpl List.filter. rewrite Hg, Hh, Ha. simpl.
  fold (missing_required table).
  destruct (decide (missing_required table = ∅)); [contradiction | reflexivity].
Qed.

(** C7, at the failing input.  The table lacks two required columns, game_pk
    and date; [dropna] raises the [KeyError] of pandas before the validation
    is reached, and that error lists game_pk only. *)
Theorem missing_game_pk_raises_key_error :
  "game_pk" ∈ missing_required schedule_without_game_pk_and_date
  /\ "date" ∈ missing_required schedule_without_game_pk_and_date
  /\ _load_and_validate_schedule (ScheduleCsv schedule_without_game_pk_and_date)
     = Raise (KeyError [ "game_pk" ]).
Proof.
  split; [|split].
  - unfold missing_required, REQUIRED_SCHEDULE_COLUMNS. simpl. set_solver.
  - unfold missing_required, REQUIRED_SCHEDULE_COLUMNS. simpl. set_solver.
  - reflexivity.
Qed.

(** *** A second run after a first one *)

Section TwoRuns.

Variable py_int : cell -> result Z.
Variable to_datetime_year : cell -> result Z.
Variable py_format : cell -> string.
Variable env : environment.
Variable cache_dir : string.
Variable force_refresh : bool.
Variable first_delay second_delay : Q.
Variable schedule : list row.
Variable disk : gmap string node.

(** The first run, with any setting of [force_refresh]. *)
Definition first_run : state :=
  _process_games py_int to_datetime_year py_format env cache_dir
    force_refresh first_delay schedule disk.

(** The second run, with [force_refresh=False], over the same schedule and
    on the disk the first run left. *)
Definition second_run : state :=
  _process_games py_int to_datetime_year py_format env cache_dir
    false second_delay schedule (files first_run).

(** C4, as amended.  When the first run counted every game of the schedule
    as cached or skipped, and every artifact written is larger than the
    validity threshold, the second run requests nothing from the remote
    service, opens no cache file for writing, leaves the disk as it was,
    counts every game as skipped and none as cached, and logs no warning. *)
Theorem second_run_skips_every_settled_game :
  large_artifacts env ->
  counted first_run = Z.of_nat (length schedule) ->
  fetched second_run = []
  /\ written second_run = []
  /\ files second_run = files first_run
  /\ cached_count second_run = 0
  /\ skipped_count second_run = Z.of_nat (length schedule)
  /\ warnings second_run = [].
Proof.
  intros Hlarge Hcount. unfold second_run, first_run, _process_games in *.
  assert (Hm : memo_ok env cache_dir (initial disk)).
  { intros y d H. simpl in H. rewrite lookup_empty in H. discriminate H. }
  destruct (process_rows_counted py_int to_datetime_year py_format env cache_dir
              force_refresh first_delay schedule Hlarge (initial disk) Hm)
    as (_ & _ & Hset).
  destruct (Hset Hcount) as (Hall & _).
  destruct (process_rows_all_skipped py_int to_datetime_year py_format env
              cache_dir false second_delay schedule eq_refl
              (initial (files (process_rows py_int to_datetime_year py_format
                                 env cache_dir force_refresh first_delay
                                 schedule (initial disk)))))
    as (Hf & Hc & Hk & Hw & Hfe & Hwr).
  - intros y d H. simpl in H. rewrite lookup_empty in H. discriminate H.
  - exact Hall.
  - rewrite Hf, Hc, Hk, Hw, Hfe, Hwr. simpl. repeat split.
Qed.

End TwoRuns.

(** *** The loop on the concrete runs *)

Lemma steady_env_large : large_artifacts steady_env.
Proof.
  intros path doc text H. simpl in H. injection H as <-.
  vm_compute. reflexivity.
Qed.

Lemma second_run_skips_every_settled_game_witness :
  fetched (second_run int_of_cell year_of_cell text_of_cell steady_env
             "MLB_CACHE" true (1 # 10) (1 # 10) two_games ∅) = []
  /\ written (second_run int_of_cell year_of_cell text_of_cell steady_env
                "MLB_CACHE" true (1 # 10) (1 # 10) two_games ∅) = []
  /\ files (second_run int_of_cell year_of_cell text_of_cell steady_env
              "MLB_CACHE" true (1 # 10) (1 # 10) two_games ∅)
     = files (first_run int_of_cell year_of_cell text_of_cell steady_env
                "MLB_CACHE" true (1 # 10) two_games ∅)
  /\ cached_count (second_run int_of_cell year_of_cell text_of_cell steady_env
                     "MLB_CACHE" true (1 # 10) (1 # 10) two_games ∅) = 0
  /\ skipped_count (second_run int_of_cell year_of_cell text_of_cell steady_env
                      "MLB_CACHE" true (1 # 10) (1 # 10) two_games ∅)
     = Z.of_nat (length two_games)
  /\ warnings (second_run int_of_cell year_of_cell text_of_cell steady_env
                 "MLB_CACHE" true (1 # 10) (1 # 10) two_games ∅) = [].
Proof.
  apply (second_run_skips_every_settled_game int_of_cell year_of_cell
           text_of_cell steady_env "MLB_CACHE" true (1 # 10) (1 # 10)
           two_games ∅).
  - exact steady_env_large.
  - vm_compute. reflexivity.
Defined.

(** The claim as first stated fails when the first run could not fetch a
    game: the second run requests that game again and does not count it as
    skipped. *)
Lemma failed_game_is_requested_again :
  cached_count (first_run int_of_cell year_of_cell text_of_cell flaky_env
                  "MLB_CACHE" false (1 # 10) two_games ∅) = 1
  /\ fetched (second_run int_of_cell year_of_cell text_of_cell flaky_env
                "MLB_CACHE" false (1 # 10) (1 # 10) two_games ∅) = [ 745445 ]
  /\ skipped_count (second_run int_of_cell year_of_cell text_of_cell flaky_env
                      "MLB_CACHE" false (1 # 10) (1 # 10) two_games ∅) = 1
  /\ length two_games = 2%nat.
Proof. repeat split; vm_compute; reflexivity. Qed.

Lemma failed_game_is_logged_and_run_continues_witness :
  process_rows int_of_cell year_of_cell text_of_cell flaky_env "MLB_CACHE"
    false (1 # 10) [ game 745445 "2024-03-29"; game 745444 "2024-03-28" ]
    (initial ∅)
  = process_rows int_of_cell year_of_cell text_of_cell flaky_env "MLB_CACHE"
      false (1 # 10) [ game 745444 "2024-03-28" ]
      (log_warning "745445" RemoteError
         (note_fetch 745445
            (set_season_dir 2024 "MLB_CACHE/2024" (initial ∅))))
  /\ cached_count (log_warning "745445" RemoteError
                     (note_fetch 745445
                        (set_season_dir 2024 "MLB_CACHE/2024" (initial ∅)))) = 0
  /\ skipped_count (log_warning "745445" RemoteError
                      (note_fetch 745445
                         (set_season_dir 2024 "MLB_CACHE/2024" (initial ∅)))) = 0
  /\ warnings (log_warning "745445" RemoteError
                 (note_fetch 745445
                    (set_season_dir 2024 "MLB_CACHE/2024" (initial ∅))))
     = [] ++ [ ("745445", RemoteError) ].
Proof.
  apply (proj2 (proj2 (proj2
           (failed_game_is_logged_and_run_continues int_of_cell year_of_cell
              text_of_cell flaky_env "MLB_CACHE" false (1 # 10) (initial ∅)
              (game 745445 "2024-03-29") [ game 745444 "2024-03-28" ])))
           (note_fetch 745445 (set_season_dir 2024 "MLB_CACHE/2024" (initial ∅)))
           FetchGame RemoteError).
  - vm_compute. reflexivity.
  - discriminate.
Defined.



(** The scenario of the specification: of three games one has a valid cache
    file; with [force_refresh=False] two are cached and one is skipped. *)
Lemma three_games_one_cached :
  let st :=
    _process_games int_of_cell year_of_cell text_of_cell steady_env "MLB_CACHE"
      false (1 # 10)
      [ game 745444 "2024-03-28"; game 745445 "2024-03-29";
        game 745446 "2024-03-30" ]
      {[ "MLB_CACHE/2024/GAMEPK_745445_NYY_VS_BOS.json" := File (filler 3000) ]}
  in
  cached_count st = 2 /\ skipped_count st = 1
  /\ fetched st = [ 745444; 745446 ].
Proof. repeat split; vm_compute; reflexivity. Qed.

(** *** What a validated schedule holds *)

Lemma has_column_In labels label :
  has_column labels label = true -> In label labels.
Proof.
  unfold has_column. induction labels as [|l rest IH]; simpl; [discriminate|].
  destruct (String.eqb l label) eqn:El.
  - intros _. left. apply String.eqb_eq, El.
  - destruct (index_of label rest); simpl; [|discriminate].
    intros _. right. apply IH. reflexivity.
Qed.


(** The records [dropna] keeps: no NaN under the three columns. *)
Definition has_ids (labels : list string) (record : list cell) : bool :=
  forallb (fun label => negb (isna (cell_at labels record label)))
    [ "game_pk"; "home_id"; "away_id" ].

Lemma load_and_validate_ok file schedule :
  _load_and_validate_schedule file = Ok schedule ->
  exists table,
    file = ScheduleCsv table
    /\ columns schedule = columns table
    /\ records schedule = List.filter (has_ids (columns table)) (records table)
    /\ Forall (fun label => In label (columns schedule))
         [ "game_pk"; "date"; "home_team"; "away_team"; "home_id"; "away_id" ].
Proof.
  unfold _load_and_validate_schedule. intros H.
  destruct file as [ | e | table ]; try discriminate H.
  exists table. split; [reflexivity|].
  unfold dropna in H. simpl List.filter in H.
  destruct (has_column (columns table) "game_pk") eqn:Hg;
    destruct (has_column (columns table) "home_id") eqn:Hh;
    destruct (has_column (columns table) "away_id") eqn:Ha;
    simpl in H; try discriminate H.
  destruct (decide (REQUIRED_SCHEDULE_COLUMNS ∖ list_to_set (columns table)
                    = (∅ : gset string))) as [Hm|Hm]; [|discriminate H].
  injection H as <-. simpl. split; [reflexivity|]. split; [reflexivity|].
  assert (Hreq : forall c, c ∈ REQUIRED_SCHEDULE_COLUMNS -> In c (columns table)).
  { intros c Hc. apply list_elem_of_In.
    apply (elem_of_list_to_set (C := gset string)).
    destruct (decide (c ∈ (list_to_set (columns table) : gset string)))
      as [Hin|Hout]; [exact Hin|].
    assert (Hd : c ∈ REQUIRED_SCHEDULE_COLUMNS
                       ∖ (list_to_set (columns table) : gset string))
      by (apply elem_of_difference; auto).
    rewrite Hm in Hd. apply elem_of_empty in Hd. destruct Hd. }
  unfold REQUIRED_SCHEDULE_COLUMNS in Hreq.
  repeat constructor; try (apply has_column_In; assumption);
    apply Hreq; set_solver.
Qed.

(** X16.  A schedule that [_load_and_validate_schedule] returns comes from a
    schedule file that could be read; it has the columns of the file, among
    them game_pk, date, home_team, away_team, home_id and away_id; and its
    records are, in order, those records of the file that hold no NaN under
    game_pk, home_id and away_id. *)
Theorem validated_schedule_postcondition :
  forall (file : schedule_file) (schedule : frame),
    _load_and_validate_schedule file = Ok schedule ->
    exists table : frame,
      file = ScheduleCsv table
      /\ columns schedule = columns table
      /\ records schedule
         = List.filter (has_ids (columns table)) (records table)
      /\ Forall (fun label => In label (columns schedule))
           [ "game_pk"; "date"; "home_team"; "away_team"; "home_id";
             "away_id" ].
Proof. intros file schedule H. apply load_and_validate_ok, H. Qed.


Lemma every_game_is_accounted_once_witness :
  cached_count (_process_games int_of_cell year_of_cell text_of_cell flaky_env
                  "MLB_CACHE" false (1 # 10) two_games ∅)
  + skipped_count (_process_games int_of_cell year_of_cell text_of_cell
                     flaky_env "MLB_CACHE" false (1 # 10) two_games ∅)
  + Z.of_nat (length (warnings (_process_games int_of_cell year_of_cell
                                  text_of_cell flaky_env "MLB_CACHE" false
                                  (1 # 10) two_games ∅)))
  = Z.of_nat (length two_games).
Proof.
  apply (every_game_is_accounted_once int_of_cell year_of_cell text_of_cell
           flaky_env "MLB_CACHE" false (1 # 10) two_games ∅).
  reflexivity.
Defined.

Lemma forced_refresh_never_skips_witness :
  skipped_count
    (process_rows int_of_cell year_of_cell text_of_cell steady_env "MLB_CACHE"
       true (1 # 10) two_games
       (initial {[ "MLB_CACHE/2024/GAMEPK_745444_NYY_VS_BOS.json"
                   := File (filler 3000) ]}))
  = skipped_count
      (initial {[ "MLB_CACHE/2024/GAMEPK_745444_NYY_VS_BOS.json"
                  := File (filler 3000) ]}).
Proof.
  apply (forced_refresh_never_skips int_of_cell year_of_cell text_of_cell
           steady_env "MLB_CACHE" true (1 # 10) eq_refl).
Defined.



Lemma save_then_validity_witness :
  (forall u, Ok tt = Ok u ->
     exists text,
       save steady_env "MLB_CACHE/2024/GAMEPK_745444_NYY_VS_BOS.json"
         play_by_play = Saved text
       /\ (<[ "MLB_CACHE/2024/GAMEPK_745444_NYY_VS_BOS.json"
               := File (filler 4096) ]> (∅ : gmap string node))
            !! "MLB_CACHE/2024/GAMEPK_745444_NYY_VS_BOS.json"
          = Some (File text)
       /\ _is_valid_cache
            (<[ "MLB_CACHE/2024/GAMEPK_745444_NYY_VS_BOS.json"
                := File (filler 4096) ]> ∅)
            "MLB_CACHE/2024/GAMEPK_745444_NYY_VS_BOS.json"
          = (Z.of_nat (String.length text) >? MIN_VALID_FILE_SIZE))
  /\ (forall other,
        other <> "MLB_CACHE/2024/GAMEPK_745444_NYY_VS_BOS.json" ->
        _is_valid_cache
          (<[ "MLB_CACHE/2024/GAMEPK_745444_NYY_VS_BOS.json"
              := File (filler 4096) ]> ∅) other
        = _is_valid_cache ∅ other).
Proof.
  apply (save_then_validity steady_env play_by_play
           "MLB_CACHE/2024/GAMEPK_745444_NYY_VS_BOS.json" ∅).
  reflexivity.
Defined.

Lemma validated_schedule_postcondition_witness :
  exists table : frame,
    ScheduleCsv one_game_table = ScheduleCsv table
    /\ columns one_game_table = columns table
    /\ records one_game_table
       = List.filter (has_ids (columns table)) (records table)
    /\ Forall (fun label => In label (columns one_game_table))
         [ "game_pk"; "date"; "home_team"; "away_team"; "home_id"; "away_id" ].
Proof.
  apply (validated_schedule_postcondition (ScheduleCsv one_game_table)
           one_game_table).
  vm_compute. reflexivity.
Defined.


End Fetch.

(* ===================================================================== *)
(** ** a_get_mlb_schedule.py: the rows of the schedule table *)
(* ===================================================================== *)

Module Schedule.

(** [obj[key]] with a string key: a missing key of a dictionary is a
    KeyError, anything that is not a dictionary cannot be indexed by a
    string. *)
Definition py_getitem (obj : json) (key : string) : result json :=
  match obj with
  | JDict members =>
      match List.find (fun kv => String.eqb (fst kv) key) members with
      | Some kv => Ok (snd kv)
      | None => Raise (KeyError [ key ])
      end
  | _ => Raise TypeError
  end.

(** [len(v)] *)
Definition py_len (v : json) : result Z :=
  match v with
  | JList items => Ok (Z.of_nat (length items))
  | JDict members => Ok (Z.of_nat (length members))
  | JStr s => Ok (Z.of_nat (String.length s))
  | _ => Raise TypeError
  end.

(** Lists and dictionaries cannot be dictionary keys. *)
Definition hashable (v : json) : bool :=
  match v with
  | JList _ | JDict _ => false
  | _ => true
  end.

Definition number_of (v : json) : option Q :=
  match v with
  | JBool b => Some (if b then 1 else 0)%Q
  | JInt z => Some (inject_Z z)
  | JFloat q => Some q
  | _ => None
  end.

(** Equality of two dictionary keys: numbers (booleans among them) by value,
    strings by text. *)
Definition py_key_eq (a b : json) : bool :=
  match number_of a, number_of b with
  | Some x, Some y => Qeq_bool x y
  | None, None =>
      match a, b with
      | JNull, JNull => true
      | JStr s, JStr t => String.eqb s t
      | _, _ => false
      end
  | _, _ => false
  end.

(** [all_teams.get(key, default)] on the dictionary from team id to
    abbreviation. *)
Definition teams_get (all_teams : list (json * json)) (key default : json)
  : result json :=
  if hashable key then
    Ok (match List.find (fun kv => py_key_eq (fst kv) key) all_teams with
        | Some kv => snd kv
        | None => default
        end)
  else Raise TypeError.

(** The row [_extract_game_row] returns. *)
Record game_row : Type := {
  date : json;
  game_pk : json;
  home_id : json;
  home_team : json;
  home_record : string;
  home_score : json;
  away_id : json;
  away_team : json;
  away_record : string;
  away_score : json;
  venue_id : json;
  venue_name : json;
  status : json
}.

(** The keys of the dictionary of a row, in the order of the literal: the
    columns of the data frame made of the rows. *)
Definition GAME_ROW_COLUMNS : list string :=
  [ "date"; "game_pk"; "home_id"; "home_team"; "home_record"; "home_score";
    "away_id"; "away_team"; "away_record"; "away_score"; "venue_id";
    "venue_name"; "status" ].

(** The name of the file [get_schedule_data] writes, lines 79-80:
    [year = start_date[:4] if start_date else "ALL"]. *)
Definition schedule_output_name (filename start_date : string) : string :=
  filename
    +:+ (if String.eqb start_date "" then "ALL"
         else String.substring 0 4 start_date)
    +:+ ".csv".

(** The name of the file [_load_and_validate_schedule(year)] of
    b_get_mlb_pbp_data.py reads, line 110. *)
Definition schedule_input_name (year : Z) : string :=
  "MLB_SCHEDULE_" +:+ pretty year +:+ ".csv".

Section Rows.

(** The text of a value in an f-string. *)
Variable py_str : json -> string.

Variable all_teams : list (json * json).

(** [_format_record(record)], lines 230-242. *)
Definition _format_record (record : json) : result string :=
  let* wins := py_get record "wins" (JInt 0) in
  let* losses := py_get record "losses" (JInt 0) in
  Ok ("[" +:+ py_str wins +:+ " - " +:+ py_str losses +:+ "]").

(** [game["teams"][side]] *)
Definition team_side (game : json) (side : string) : result json :=
  let* teams := py_getitem game "teams" in
  py_getitem teams side.

(** [_extract_game_row(game, all_teams)], lines 193-227. *)
Definition _extract_game_row (game : json) : result game_row :=
  let* home := team_side game "home" in
  let* home_t := py_getitem home "team" in
  let* home_team_id := py_getitem home_t "id" in
  let* away := team_side game "away" in
  let* away_t := py_getitem away "team" in
  let* away_team_id := py_getitem away_t "id" in
  let* home' := team_side game "home" in
  let* home_rec := py_get home' "leaguerecord" (JDict []) in
  let* away' := team_side game "away" in
  let* away_rec := py_get away' "leaguerecord" (JDict []) in
  let* gamedate := py_get game "gamedate" (JStr "") in
  let* gamepk := py_get game "gamepk" (JStr "") in
  let* home_abbreviation := teams_get all_teams home_team_id (JStr "UNKNOWN") in
  let* home_text := _format_record home_rec in
  let* home'' := team_side game "home" in
  let* home_runs := py_get home'' "score" (JInt 0) in
  let* away_abbreviation := teams_get all_teams away_team_id (JStr "UNKNOWN") in
  let* away_text := _format_record away_rec in
  let* away'' := team_side game "away" in
  let* away_runs := py_get away'' "score" (JInt 0) in
  let* venue := py_get game "venue" (JDict []) in
  let* vid := py_get venue "id" (JStr "") in
  let* venue' := py_get game "venue" (JDict []) in
  let* vname := py_get venue' "name" (JStr "") in
  let* st := py_get game "status" (JDict []) in
  let* detailed := py_get st "detailedState" (JStr "") in
  Ok {| date := gamedate; game_pk := gamepk;
        home_id := home_team_id; home_team := home_abbreviation;
        home_record := home_text; home_score := home_runs;
        away_id := away_team_id; away_team := away_abbreviation;
        away_record := away_text; away_score := away_runs;
        venue_id := vid; venue_name := vname; status := detailed |}.

(** [sum(len(date["games"]) for date in ...)], line 175. *)
Fixpoint total_games (dates : list json) : result Z :=
  match dates with
  | [] => Ok 0
  | d :: rest =>
      let* games := py_getitem d "games" in
      let* n := py_len games in
      let* m := total_games rest in
      Ok (n + m)
  end.

(** The loop over the games of one date, lines 179-187: a KeyError of a game
    is logged as a warning and the loop goes on; any other exception leaves
    the loop. *)
Fixpoint games_loop (games : list json) (rows : list game_row)
  (warnings : list exn) : result (list game_row) * list exn :=
  match games with
  | [] => (Ok rows, warnings)
  | game :: rest =>
      match _extract_game_row game with
      | Ok row => games_loop rest (rows ++ [ row ]) warnings
      | Raise (KeyError labels) =>
          games_loop rest rows (warnings ++ [ KeyError labels ])
      | Raise e => (Raise e, warnings)
      end
  end.

(** The loop over the dates, lines 178-187. *)
Fixpoint dates_loop (dates : list json) (rows : list game_row)
  (warnings : list exn) : result (list game_row) * list exn :=
  match dates with
  | [] => (Ok rows, warnings)
  | d :: rest =>
      match (let* games := py_get d "games" (JList []) in py_iter games) with
      | Raise e => (Raise e, warnings)
      | Ok games =>
          match games_loop games rows warnings with
          | (Ok rows', warnings') => dates_loop rest rows' warnings'
          | (Raise e, warnings') => (Raise e, warnings')
          end
      end
  end.

(** [_process_schedule_games(schedule, all_teams)], lines 158-190: the rows
    returned or the exception raised, and the warnings logged. *)
Definition _process_schedule_games (schedule : json)
  : result (list game_row) * list exn :=
  match (let* dates_json := py_get schedule "dates" (JList []) in
         let* dates := py_iter dates_json in
         let* total := total_games dates in
         Ok dates) with
  | Raise e => (Raise e, [])
  | Ok dates => dates_loop dates [] []
  end.

(** The games of a schedule as the loops read them, date after date. *)
Definition games_of (schedule : json) : list json :=
  flat_map (fun d => Stats.items_of (Stats.member d "games"))
    (Stats.items_of (Stats.member schedule "dates")).

(** The row of a game, when [_extract_game_row] returns one; its exception,
    when it raises. *)
Definition row_of (game : json) : list game_row :=
  match _extract_game_row game with
  | Ok row => [ row ]
  | Raise _ => []
  end.

Definition error_of (game : json) : list exn :=
  match _extract_game_row game with
  | Ok _ => []
  | Raise e => [ e ]
  end.

Definition is_key_error (e : exn) : Prop :=
  exists labels, e = KeyError labels.

(** *** What the loops keep and what they let through *)

Lemma extract_game_row_str s : _extract_game_row (JStr s) = Raise TypeError.
Proof. reflexivity. Qed.

Lemma one_row_or_one_error game :
  (length (row_of game) + length (error_of game) = 1)%nat.
Proof.
  unfold row_of, error_of. destruct (_extract_game_row game); reflexivity.
Qed.

Lemma rows_and_errors_length games :
  (length (flat_map row_of games) + length (flat_map error_of games)
   = length games)%nat.
Proof.
  induction games as [|g gs IH]; simpl; [reflexivity|].
  rewrite !length_app. pose proof (one_row_or_one_error g). lia.
Qed.

Lemma games_loop_ok games :
  forall rows warnings rows' warnings',
    games_loop games rows warnings = (Ok rows', warnings') ->
    rows' = rows ++ flat_map row_of games
    /\ warnings' = warnings ++ flat_map error_of games
    /\ Forall is_key_error (flat_map error_of games).
Proof.
  induction games as [|game games IH]; intros rows ws rows' ws' H; simpl in H.
  - injection H as <- <-. simpl. rewrite !app_nil_r. auto.
  - simpl. unfold row_of at 1, error_of at 1, error_of at 2.
    destruct (_extract_game_row game) as [row|e].
    + apply IH in H as (-> & -> & Hk). rewrite <- app_assoc. auto.
    + destruct e; try discriminate H.
      apply IH in H as (-> & -> & Hk). rewrite <- app_assoc. simpl.
      repeat split; auto. constructor; [eexists; reflexivity | exact Hk].
Qed.

Lemma games_loop_raise games :
  forall rows warnings e warnings',
    games_loop games rows warnings = (Raise e, warnings') ->
    ~ is_key_error e.
Proof.
  induction games as [|game games IH]; intros rows ws e ws' H; simpl in H.
  - discriminate H.
  - destruct (_extract_game_row game) as [row|e0]; [eauto|].
    destruct e0; try (injection H as <- _; intros [l Hl]; discriminate Hl).
    eauto.
Qed.

Lemma dates_loop_ok dates :
  forall rows warnings rows' warnings',
    dates_loop dates rows warnings = (Ok rows', warnings') ->
    let games :=
      flat_map (fun d => Stats.items_of (Stats.member d "games")) dates in
    rows' = rows ++ flat_map row_of games
    /\ warnings' = warnings ++ flat_map error_of games
    /\ Forall is_key_error (flat_map error_of games).
Proof.
  induction dates as [|d dates IH]; intros rows ws rows' ws' H; simpl in H.
  - injection H as <- <-. simpl. rewrite !app_nil_r. auto.
  - destruct (py_get d "games" (JList [])) as [games_json|e] eqn:Eg;
      [|discriminate H].
    cbn [bind] in H.
    destruct (py_iter games_json) as [games|e] eqn:Ei; [|discriminate H].
    destruct (Stats.get_list_items _ _ _ _ Eg Ei) as [-> | (_ & s & r & ->)].
    2:{ simpl in H. discriminate H. }
    destruct (games_loop (Stats.items_of (Stats.member d "games")) rows ws)
      as [[rows1|e] ws1] eqn:El; [|discriminate H].
    apply games_loop_ok in El as (-> & -> & Hk1).
    apply IH in H as (-> & -> & Hk2).
    simpl. rewrite !flat_map_app, <- !app_assoc.
    repeat split; auto. apply Forall_app. auto.
Qed.

Lemma dates_loop_raise dates :
  forall rows warnings e warnings',
    dates_loop dates rows warnings = (Raise e, warnings') ->
    ~ is_key_error e.
Proof.
  induction dates as [|d dates IH]; intros rows ws e ws' H; simpl in H.
  - discriminate H.
  - destruct (py_get d "games" (JList [])) as [games_json|e0] eqn:Eg.
    2:{ cbn [bind] in H. injection H as <- _.
        destruct d; try discriminate Eg; simpl in Eg; injection Eg as <-;
          intros [l Hl]; discriminate Hl. }
    cbn [bind] in H.
    destruct (py_iter games_json) as [games|e0] eqn:Ei.
    2:{ injection H as <- _.
        destruct games_json; try discriminate Ei; simpl in Ei;
          injection Ei as <-; intros [l Hl]; discriminate Hl. }
    destruct (games_loop games rows ws) as [[rows1|e0] ws1] eqn:El.
    + eauto.
    + injection H as <- _. eapply games_loop_raise; eauto.
Qed.

Lemma total_games_raise dates e :
  total_games dates = Raise e ->
  e = KeyError [ "games" ] \/ e = TypeError.
Proof.
  induction dates as [|d dates IH]; simpl; intros H; [discriminate H|].
  destruct (py_getitem d "games") as [games|e0] eqn:Eg.
  2:{ cbn [bind] in H. injection H as <-.
      destruct d; simpl in Eg; try (injection Eg as <-; auto).
      destruct (List.find _ members); [discriminate Eg|].
      injection Eg as <-. auto. }
  cbn [bind] in H.
  destruct (py_len games) as [n|e0] eqn:En.
  2:{ cbn [bind] in H. injection H as <-.
      destruct games; simpl in En; try discriminate En; injection En as <-; auto. }
  cbn [bind] in H.
  destruct (total_games dates) as [m|e0]; [discriminate H|].
  cbn [bind] in H. injection H as <-. auto.
Qed.

Lemma total_games_str s rest e :
  total_games (JStr s :: rest) = Raise e -> e = TypeError.
Proof. simpl. intros H. injection H as <-. reflexivity. Qed.

(** X18.  When [_process_schedule_games] returns, every game of the schedule
    is accounted for once, in order: the rows returned are the rows of the
    games for which [_extract_game_row] returned one, the warnings logged
    are the KeyErrors of the other games, and rows and warnings together are
    as many as the games. *)
Theorem schedule_rows_and_warnings_cover_the_games :
  forall (schedule : json) (rows : list game_row) (warnings : list exn),
    _process_schedule_games schedule = (Ok rows, warnings) ->
    rows = flat_map row_of (games_of schedule)
    /\ warnings = flat_map error_of (games_of schedule)
    /\ Forall is_key_error warnings
    /\ (length rows + length warnings = length (games_of schedule))%nat.
Proof.
  intros schedule rows ws H. unfold _process_schedule_games in H.
  destruct (py_get schedule "dates" (JList [])) as [dates_json|e] eqn:Ed;
    [|discriminate H].
  cbn [bind] in H.
  destruct (py_iter dates_json) as [dates|e] eqn:Ei; [|discriminate H].
  cbn [bind] in H.
  destruct (total_games dates) as [total|e] eqn:Et; [|discriminate H].
  cbn [bind] in H.
  destruct (Stats.get_list_items _ _ _ _ Ed Ei) as [-> | (_ & s & r & ->)].
  2:{ simpl in Et. discriminate Et. }
  apply dates_loop_ok in H as (-> & -> & Hk). fold (games_of schedule) in *.
  simpl. split; [reflexivity|]. split; [reflexivity|]. split; [exact Hk|].
  apply rows_and_errors_length.
Qed.

(** X19.  The only KeyError that leaves [_process_schedule_games] is the one
    for a date without a "games" member, raised while the games are counted,
    before any game is read and any warning logged; a KeyError of a game is
    never let through. *)
Theorem only_missing_games_key_error_escapes :
  forall (schedule : json) (labels : list string) (warnings : list exn),
    _process_schedule_games schedule = (Raise (KeyError labels), warnings) ->
    labels = [ "games" ] /\ warnings = [].
Proof.
  intros schedule labels ws H. unfold _process_schedule_games in H.
  destruct (py_get schedule "dates" (JList [])) as [dates_json|e] eqn:Ed.
  2:{ destruct schedule; simpl in Ed; discriminate || (injection Ed as <-);
        discriminate H. }
  cbn [bind] in H.
  destruct (py_iter dates_json) as [dates|e] eqn:Ei.
  2:{ destruct dates_json; simpl in Ei; try discriminate Ei;
        injection Ei as <-; discriminate H. }
  cbn [bind] in H.
  destruct (total_games dates) as [total|e] eqn:Et.
  - cbn [bind] in H. apply dates_loop_raise in H.
    destruct H. eexists; reflexivity.
  - cbn [bind] in H. injection H as -> <-.
    apply total_games_raise in Et as [Hk|Hk]; [|discriminate Hk].
    injection Hk as ->. auto.
Qed.

(** *** The members a game must have *)

(** The exceptions of [_extract_game_row]: a lookup in something that is not
    a dictionary, a team identifier that cannot be a dictionary key, or a
    missing member on the way to a team identifier. *)
Definition row_error (e : exn) : Prop :=
  e = AttributeError
  \/ e = TypeError
  \/ exists key,
       In key [ "teams"; "home"; "away"; "team"; "id" ] /\ e = KeyError [ key ].

Lemma py_getitem_raise obj key e :
  py_getitem obj key = Raise e -> e = TypeError \/ e = KeyError [ key ].
Proof.
  destruct obj; simpl; intros H; try (injection H as <-; auto).
  destruct (List.find _ members); [discriminate H|]. injection H as <-. auto.
Qed.

Lemma py_get_attribute_error obj key default e :
  py_get obj key default = Raise e -> e = AttributeError.
Proof. destruct obj; simpl; intros H; try discriminate H; injection H as <-; reflexivity. Qed.

Lemma teams_get_raise key default e :
  teams_get all_teams key default = Raise e -> e = TypeError.
Proof.
  unfold teams_get. destruct (hashable key); intros H; [discriminate H|].
  injection H as <-. reflexivity.
Qed.

Lemma format_record_raise record e :
  _format_record record = Raise e -> e = AttributeError.
Proof.
  unfold _format_record. intros H.
  destruct (py_get record "wins" (JInt 0)) eqn:E1; cbn [bind] in H.
  2:{ injection H as <-. eapply py_get_attribute_error; eauto. }
  destruct (py_get record "losses" (JInt 0)) eqn:E2; cbn [bind] in H.
  2:{ injection H as <-. eapply py_get_attribute_error; eauto. }
  discriminate H.
Qed.

Lemma team_side_raise game side_key e :
  In side_key [ "home"; "away" ] ->
  team_side game side_key = Raise e -> row_error e.
Proof.
  intros Hs. unfold team_side. intros H.
  destruct (py_getitem game "teams") eqn:E1; cbn [bind] in H.
  - apply py_getitem_raise in H as [-> | ->]; [right; left; reflexivity|].
    right; right. exists side_key. split; [|reflexivity].
    destruct Hs as [<- | [<- | []]]; simpl; auto.
  - injection H as <-.
    apply py_getitem_raise in E1 as [-> | ->]; [right; left; reflexivity|].
    right; right. exists "teams". split; [left|]; reflexivity.
Qed.

Ltac row_step H :=
  match type of H with
  | bind ?m _ = Raise _ =>
      let E := fresh "E" in
      destruct m eqn:E; cbn [bind] in H;
      [ | injection H as <-;
          first
            [ apply py_get_attribute_error in E; subst; left; reflexivity
            | apply teams_get_raise in E; subst; right; left; reflexivity
            | apply format_record_raise in E; subst; left; reflexivity
            | apply team_side_raise in E; [exact E | simpl; tauto]
            | apply py_getitem_raise in E as [-> | ->];
              [ right; left; reflexivity
              | right; right; eexists; split; [|reflexivity]; simpl; tauto ] ] ]
  end.

(** X22.  The only members a game must have for [_extract_game_row] are
    those on the way to the two team identifiers: when it raises a KeyError
    the missing key is one of teams, home, away, team and id.  A missing
    gamedate, gamepk, leaguerecord, score, venue or status never raises; the
    other exceptions are an AttributeError or a TypeError for a member of
    the wrong kind. *)
Theorem game_row_requires_only_team_ids :
  forall (game : json) (e : exn),
    _extract_game_row game = Raise e ->
    e = AttributeError
    \/ e = TypeError
    \/ exists key,
         In key [ "teams"; "home"; "away"; "team"; "id" ]
         /\ e = KeyError [ key ].
Proof.
  intros game e H. unfold _extract_game_row in H.
  repeat row_step H. discriminate H.
Qed.

End Rows.

Lemma substring_prefix (s t : string) :
  String.substring 0 (String.length s) (s +:+ t) = s.
Proof.
  induction s as [|c s IH]; simpl.
  - destruct t; reflexivity.
  - rewrite IH. reflexivity.
Qed.

Lemma pretty_four_digits (year : Z) :
  1000 <= year <= 9999 -> String.length (pretty year) = 4%nat.
Proof.
  intros Hy.
  assert (Hall : forallb
                   (fun n => Nat.eqb
                               (String.length (pretty (Z.of_nat n + 1000))) 4)
                   (seq 0 (Z.to_nat 9000)) = true) by (vm_compute; reflexivity).
  rewrite forallb_forall in Hall.
  specialize (Hall (Z.to_nat (year - 1000))).
  replace (Z.of_nat (Z.to_nat (year - 1000)) + 1000) with year in Hall by lia.
  apply Nat.eqb_eq, Hall. apply in_seq. lia.
Qed.

(** X20.  For a season year of four digits, the schedule file that
    [get_schedule_data] writes for a start date that begins with that year
    has the name under which [_load_and_validate_schedule] looks for the
    schedule of that year: MLB_SCHEDULE_<year>.csv. *)
Theorem schedule_written_is_schedule_read :
  forall (year : Z) (rest : string),
    1000 <= year <= 9999 ->
    schedule_output_name "MLB_SCHEDULE_" (pretty year +:+ rest)
    = schedule_input_name year.
Proof.
  intros year rest Hy. unfold schedule_output_name, schedule_input_name.
  pose proof (pretty_four_digits year Hy) as Hl.
  assert (Hne : String.eqb (pretty year +:+ rest) "" = false).
  { destruct (pretty year) as [|c s]; [discriminate Hl | reflexivity]. }
  rewrite Hne. rewrite <- Hl at 1. rewrite substring_prefix. reflexivity.
Qed.

(** X21.  A schedule table that has the columns of the rows
    [_extract_game_row] builds passes the validation of
    [_load_and_validate_schedule] whatever its records are: nothing is
    raised, the columns are kept, and the records kept are those without a
    NaN under game_pk, home_id and away_id. *)
Theorem schedule_rows_pass_validation :
  forall records : list (list Fetch.cell),
    Fetch._load_and_validate_schedule
      (Fetch.ScheduleCsv
         {| Fetch.columns := GAME_ROW_COLUMNS; Fetch.records := records |})
    = Ok {| Fetch.columns := GAME_ROW_COLUMNS;
            Fetch.records :=
              List.filter (Fetch.has_ids GAME_ROW_COLUMNS) records |}.
Proof.
  intros records. unfold Fetch._load_and_validate_schedule, Fetch.dropna.
  simpl.
  destruct (decide (Fetch.REQUIRED_SCHEDULE_COLUMNS
                      ∖ list_to_set GAME_ROW_COLUMNS = (∅ : gset string)))
    as [_|Hne]; [reflexivity|].
  exfalso. apply Hne. unfold Fetch.REQUIRED_SCHEDULE_COLUMNS, GAME_ROW_COLUMNS.
  set_solver.
Qed.

(** *** A concrete schedule *)

Definition text_of (v : json) : string :=
  match v with
  | JInt z => pretty z
  | JStr s => s
  | _ => "?"
  end.

Definition two_teams : list (json * json) :=
  [ (JInt 147, JStr "NYY"); (JInt 111, JStr "BOS") ].

Definition side (id wins losses : Z) : json :=
  JDict [ ("team", JDict [ ("id", JInt id) ]);
          ("leaguerecord", JDict [ ("wins", JInt wins);
                                   ("losses", JInt losses) ]);
          ("score", JInt 3) ].

Definition opening_game : json :=
  JDict [ ("gamepk", JInt 745444); ("gamedate", JStr "2024-03-28");
          ("teams", JDict [ ("home", side 147 1 0); ("away", side 111 0 1) ]) ].

(** A game without its "teams" member. *)
Definition postponed_game : json :=
  JDict [ ("gamepk", JInt 745445); ("gamedate", JStr "2024-03-29") ].

Definition opening_schedule : json :=
  JDict [ ("dates",
            JList [ JDict [ ("games", JList [ postponed_game; opening_game ]) ] ]) ].

(** A schedule with a date that has no "games" member. *)
Definition schedule_with_empty_date : json :=
  JDict [ ("dates",
            JList [ JDict [ ("games", JList [ opening_game ]) ];
                    JDict [ ("date", JStr "2024-03-30") ] ]) ].

Lemma schedule_rows_and_warnings_cover_the_games_witness :
  exists row : game_row,
    fst (_process_schedule_games text_of two_teams opening_schedule)
    = Ok [ row ]
    /\ game_pk row = JInt 745444
    /\ home_team row = JStr "NYY"
    /\ home_record row = "[1 - 0]"
    /\ snd (_process_schedule_games text_of two_teams opening_schedule)
       = [ KeyError [ "teams" ] ]
    /\ (length [ row ] + length [ KeyError [ "teams" ] ]
        = length (games_of opening_schedule))%nat.
Proof.
  eexists. split; [reflexivity|]. split; [reflexivity|].
  split; [reflexivity|]. split; [reflexivity|]. split; [reflexivity|].
  apply (schedule_rows_and_warnings_cover_the_games text_of two_teams
           opening_schedule _ _ eq_refl).
Defined.

Lemma only_missing_games_key_error_escapes_witness :
  _process_schedule_games text_of two_teams schedule_with_empty_date
  = (Raise (KeyError [ "games" ]), [])
  /\ ([ "games" ] = [ "games" ] /\ @nil exn = []).
Proof.
  split; [reflexivity|].
  apply (only_missing_games_key_error_escapes text_of two_teams
           schedule_with_empty_date [ "games" ] []).
  reflexivity.
Defined.

Lemma schedule_written_is_schedule_read_witness :
  schedule_output_name "MLB_SCHEDULE_" "2024-03-28" = "MLB_SCHEDULE_2024.csv".
Proof.
  apply (schedule_written_is_schedule_read 2024 "-03-28"). lia.
Defined.

Lemma game_row_requires_only_team_ids_witness :
  KeyError [ "teams" ] = AttributeError
  \/ KeyError [ "teams" ] = TypeError
  \/ exists key,
       In key [ "teams"; "home"; "away"; "team"; "id" ]
       /\ KeyError [ "teams" ] = KeyError [ key ].
Proof.
  apply (game_row_requires_only_team_ids text_of two_teams postponed_game).
  reflexivity.
Defined.

End Schedule.
